(** * The project-assistant chat page (capstone.py)

    A shallow embedding of the Streamlit script [capstone.py]: the script is
    re-executed from its first line on every user action, against a process
    that keeps [os.environ] and the [st.cache_resource] store, and a session
    that keeps [st.session_state].  One execution of the script is a
    computation in a state monad over that persistent state, which also
    records what the run does (elements drawn, environment reads, clients
    built, completion requests sent) and can end early with one of the
    framework's control exceptions. *)

From stdpp Require Import gmap strings list.

Local Open Scope string_scope.
Local Open Scope list_scope.

(** ** Data *)

(** A chat message is a dict with the two keys [role] and [content]. *)
Record Message := { role : string; content : string }.

(** The handle returned by [AzureOpenAI(api_version=, azure_endpoint=, api_key=)];
    the three keyword arguments are optional strings in the library. *)
Record Client := {
  api_version : option string;
  azure_endpoint : option string;
  api_key : option string }.

(** The [extra_body] of the completion call (lines 48-67). *)
Record Authentication := { auth_type : string; key : option string }.

Record EmbeddingDependency := {
  dependency_type : string;
  deployment_name : option string }.

Record Parameters := {
  endpoint : option string;
  index_name : option string;
  authentication : Authentication;
  query_type : string;
  embedding_dependency : EmbeddingDependency }.

Record DataSource := { source_type : string; parameters : Parameters }.

Record RagParams := { data_sources : list DataSource }.

(** The keyword arguments of [chat_client.chat.completions.create]. *)
Record Request := {
  model : option string;
  request_messages : list Message;
  extra_body : RagParams }.

(** What the remote service does with a request: it answers with a list of
    choices, or the call raises an exception whose [str] is [msg].  The
    content of a choice is taken to be a string, as the content of a
    message is. *)
Record Choice := { message_content : string }.

Inductive Outcome :=
| Response (choices : list Choice)
| Raises (msg : string).

(** Elements the script draws, and where. *)
Inductive Element :=
| page_config (page_title page_icon layout : string)
| title (body : string)
| header (body : string)
| markdown (body : string)
| markdown_html (body : string)
| error (body : string)
| success (body : string)
| button (label : string)
| link_button (label url : string)
| chat_input (placeholder : string)
| chat_message (name : string)
| spinner (text : string)
| columns (n : nat).

Inductive Place :=
| Main
| Sidebar
| InChatMessage (name : string)
| InColumn (n : nat).

(** Observable actions of a run, in program order. *)
Inductive Event :=
| Render (p : Place) (e : Element)
| Getenv (name : string)
| Construct (c : Client)
| Create (c : Client) (rq : Request).

(** The entry [st.cache_resource] keeps for [initialize_azure_client]: the
    returned value and the elements drawn inside the call, which the
    framework draws again on every later hit. *)
Record CacheEntry := {
  cached_value : option Client;
  cached_elements : list (Place * Element) }.

(** [st.session_state]: each of the two keys may be missing. *)
Record SessionState := {
  messages : option (list Message);
  chat_history : option (list Message) }.

(** What outlives one execution of the script. *)
Record World := {
  environ : gmap string string;
  resource_cache : option CacheEntry;
  session_state : SessionState }.

(** What one execution of the script receives from outside: the contents of
    the [.env] file, the values the clear button and the chat input return,
    and the behaviour of the two library calls that leave the program. *)
Record Inputs := {
  dotenv : gmap string string;
  clear_clicked : bool;
  prompt : option string;
  constructor_error : option string;
  completions_create : Client -> Request -> Outcome }.

Definition set_environ (f : gmap string string -> gmap string string) (w : World) : World :=
  {| environ := f (environ w);
     resource_cache := resource_cache w;
     session_state := session_state w |}.

Definition set_resource_cache (c : option CacheEntry) (w : World) : World :=
  {| environ := environ w;
     resource_cache := c;
     session_state := session_state w |}.

Definition set_session_state (f : SessionState -> SessionState) (w : World) : World :=
  {| environ := environ w;
     resource_cache := resource_cache w;
     session_state := f (session_state w) |}.

Definition set_messages (ms : list Message) (s : SessionState) : SessionState :=
  {| messages := Some ms; chat_history := chat_history s |}.

Definition set_chat_history (ms : list Message) (s : SessionState) : SessionState :=
  {| messages := messages s; chat_history := Some ms |}.

(** ** The monad of script runs *)

(** [st.stop()] and [st.rerun()] raise control exceptions that do not derive
    from [Exception]; every other exception of the program does. *)
Inductive Signal :=
| StopException
| RerunException
| PyException (msg : string).

Inductive Result (A : Type) :=
| Return (a : A)
| Raise (s : Signal).
Arguments Return {A} a.
Arguments Raise {A} s.

Definition M (A : Type) : Type := World -> Result A * World * list Event.

Definition ret {A} (a : A) : M A := fun w => (Return a, w, []).

Definition bind {A B} (m : M A) (k : A -> M B) : M B := fun w =>
  match m w with
  | (Return a, w1, t1) =>
      match k a w1 with
      | (r, w2, t2) => (r, w2, t1 ++ t2)
      end
  | (Raise s, w1, t1) => (Raise s, w1, t1)
  end.

Notation "x <- m ;; k" := (bind m (fun x => k))
  (at level 100, m at next level, k at level 200, right associativity).
Notation "m ;;; k" := (bind m (fun _ => k))
  (at level 100, k at level 200, right associativity).

Definition raise {A} (s : Signal) : M A := fun w => (Raise s, w, []).

Definition emit (e : Event) : M unit := fun w => (Return tt, w, [e]).

Definition modify (f : World -> World) : M unit := fun w => (Return tt, f w, []).

Definition gets {A} (f : World -> A) : M A := fun w => (Return (f w), w, []).

(** [try: body except Exception as e: handler(str(e))] *)
Definition try_except {A} (body : M A) (handler : string -> M A) : M A := fun w =>
  match body w with
  | (Raise (PyException msg), w1, t1) =>
      match handler msg w1 with
      | (r, w2, t2) => (r, w2, t1 ++ t2)
      end
  | out => out
  end.

(** Truth value of an optional string: [None] and [""] are false. *)
Definition truthy (v : option string) : bool :=
  match v with
  | Some s => negb (String.eqb s "")
  | None => false
  end.

(** ** Library calls *)

Definition os_getenv (name : string) : M (option string) :=
  emit (Getenv name) ;;; gets (fun w => environ w !! name).

(** [load_dotenv()]: variables of the file are added to [os.environ];
    a variable that is already set keeps its value. *)
Definition load_dotenv (i : Inputs) : M unit :=
  modify (set_environ (fun env => env ∪ dotenv i)).

Definition st (p : Place) (e : Element) : M unit := emit (Render p e).

Definition st_stop {A} : M A := raise StopException.
Definition st_rerun {A} : M A := raise RerunException.

(** [st.link_button] draws the link and returns the element it drew, which
    is a true value whether or not the link has been followed. *)
Definition st_link_button (p : Place) (label url : string) : M bool :=
  st p (link_button label url) ;;; ret true.

Definition AzureOpenAI (i : Inputs) (version url k : option string) : M Client :=
  match constructor_error i with
  | Some msg => raise (PyException msg)
  | None =>
      let c := {| api_version := version; azure_endpoint := url; api_key := k |} in
      emit (Construct c) ;;; ret c
  end.

(** The elements among the events of a call, and drawing them again. *)
Definition drawn (t : list Event) : list (Place * Element) :=
  omap (fun e => match e with Render p x => Some (p, x) | _ => None end) t.

Definition replay (elements : list (Place * Element)) : list Event :=
  map (fun pe => Render pe.1 pe.2) elements.

(** [@st.cache_resource] on a function without arguments: the first call that
    returns is stored with the elements it drew; every later call returns
    the stored value and draws the stored elements, without running the
    function. *)
Definition cache_resource (f : M (option Client)) : M (option Client) := fun w =>
  match resource_cache w with
  | Some entry => (Return (cached_value entry), w, replay (cached_elements entry))
  | None =>
      match f w with
      | (Return v, w1, t) =>
          (Return v,
           set_resource_cache
             (Some {| cached_value := v; cached_elements := drawn t |}) w1,
           t)
      | out => out
      end
  end.

(** ** The program *)

(** Lines 17-35, without the decorator. *)
Definition initialize_azure_client_body (i : Inputs) : M (option Client) :=
  try_except
    (open_ai_endpoint <- os_getenv "OPEN_AI_ENDPOINT" ;;
     open_ai_key <- os_getenv "OPEN_AI_KEY" ;;
     if negb (truthy open_ai_endpoint) || negb (truthy open_ai_key) then
       st Main (error "Missing Azure OpenAI configuration. Please check your .env file.") ;;;
       ret None
     else
       client <- AzureOpenAI i (Some "2024-12-01-preview") open_ai_endpoint open_ai_key ;;
       ret (Some client))
    (fun e =>
       st Main (error ("Failed to initialize Azure client: " +:+ e)) ;;;
       ret None).

Definition initialize_azure_client (i : Inputs) : M (option Client) :=
  cache_resource (initialize_azure_client_body i).

(** [response.choices[0].message.content] *)
Definition first_choice_content (choices : list Choice) : M string :=
  match choices with
  | c :: _ => ret (message_content c)
  | [] => raise (PyException "list index out of range")
  end.

(** Lines 48-67: the [rag_params] dict. *)
Definition rag_params (search_url index search_key embedding_model : option string)
  : RagParams :=
  {| data_sources :=
       [ {| source_type := "azure_search";
            parameters :=
              {| endpoint := search_url;
                 index_name := index;
                 authentication := {| auth_type := "api_key"; key := search_key |};
                 query_type := "vector";
                 embedding_dependency :=
                   {| dependency_type := "deployment_name";
                      deployment_name := embedding_model |} |} |} ] |}.

(** Lines 37-79. *)
Definition get_rag_response (i : Inputs) (chat_client : Client) (msgs : list Message)
  : M string :=
  try_except
    (chat_model <- os_getenv "CHAT_MODEL" ;;
     embedding_model <- os_getenv "EMBEDDING_MODEL" ;;
     search_url <- os_getenv "SEARCH_ENDPOINT" ;;
     search_key <- os_getenv "SEARCH_KEY" ;;
     index <- os_getenv "INDEX_NAME" ;;
     let rq := {| model := chat_model;
                  request_messages := msgs;
                  extra_body := rag_params search_url index search_key embedding_model |} in
     emit (Create chat_client rq) ;;;
     match completions_create i chat_client rq with
     | Raises msg => raise (PyException msg)
     | Response choices => first_choice_content choices
     end)
    (fun e => ret ("Error: " +:+ e)).

(** Lines 82-88: the two keys of the session state are set when missing. *)
Definition system_prompt : Message :=
  {| role := "system";
     content := "you are an expert on my history and the projects i have worked on." |}.

Definition init_session_state : M unit :=
  has_messages <- gets (fun w => messages (session_state w)) ;;
  (match has_messages with
   | None => modify (set_session_state (set_messages [system_prompt]))
   | Some _ => ret tt
   end) ;;;
  has_history <- gets (fun w => chat_history (session_state w)) ;;
  match has_history with
  | None => modify (set_session_state (set_chat_history []))
  | Some _ => ret tt
  end.

(** Reading an attribute of [st.session_state] that was never set raises. *)
Definition session_messages : M (list Message) :=
  v <- gets (fun w => messages (session_state w)) ;;
  match v with
  | Some ms => ret ms
  | None => raise (PyException "st.session_state has no attribute 'messages'")
  end.

Definition session_chat_history : M (list Message) :=
  v <- gets (fun w => chat_history (session_state w)) ;;
  match v with
  | Some ms => ret ms
  | None => raise (PyException "st.session_state has no attribute 'chat_history'")
  end.

(** [st.session_state.messages.append(m)] and the same for [chat_history]. *)
Definition messages_append (m : Message) : M unit :=
  ms <- session_messages ;;
  modify (set_session_state (set_messages (ms ++ [m]))).

Definition chat_history_append (m : Message) : M unit :=
  ms <- session_chat_history ;;
  modify (set_session_state (set_chat_history (ms ++ [m]))).

(** Lines 104-109: the handler of the clear button. *)
Definition clear_prompt : Message :=
  {| role := "system";
     content := "You are a travel assistant that provides information on travel services available from Margie's Travel." |}.

Definition clear_chat_history : M unit :=
  modify (set_session_state (set_chat_history [])) ;;;
  modify (set_session_state (set_messages [clear_prompt])) ;;;
  st_rerun.

(** Lines 118-130: the configuration status panel. *)
Definition config_items : M (list (string * option string)) :=
  v1 <- os_getenv "OPEN_AI_ENDPOINT" ;;
  v2 <- os_getenv "CHAT_MODEL" ;;
  v3 <- os_getenv "EMBEDDING_MODEL" ;;
  v4 <- os_getenv "SEARCH_ENDPOINT" ;;
  v5 <- os_getenv "INDEX_NAME" ;;
  ret [ ("Azure OpenAI Endpoint", v1);
        ("Chat Model", v2);
        ("Embedding Model", v3);
        ("Search Endpoint", v4);
        ("Index Name", v5) ].

Definition status_line (item : string) (value : option string) : Element :=
  if truthy value then success ("✅ " +:+ item) else error ("❌ " +:+ item).

Fixpoint show_config (items : list (string * option string)) : M unit :=
  match items with
  | [] => ret tt
  | (item, value) :: rest => st Sidebar (status_line item value) ;;; show_config rest
  end.

Definition configuration_status : M unit :=
  st Sidebar (markdown "---") ;;;
  st Sidebar (markdown "### Configuration Status") ;;;
  items <- config_items ;;
  show_config items.

(** Lines 101-130. *)
Definition sidebar (i : Inputs) : M unit :=
  st Sidebar (header "Chat Controls") ;;;
  st Sidebar (button "🗑️ Clear Chat History") ;;;
  (if clear_clicked i then clear_chat_history else ret tt) ;;;
  st Sidebar (markdown "---") ;;;
  st Sidebar (markdown "### About") ;;;
  st Sidebar (markdown "This chatbot uses Azure RAG to provide information about the project I have worked on knowledge base. Download the project below") ;;;
  configuration_status.

(** Lines 136-140. *)
Fixpoint show_messages (ms : list Message) : M unit :=
  match ms with
  | [] => ret tt
  | m :: rest =>
      st Main (chat_message (role m)) ;;;
      st (InChatMessage (role m)) (markdown (content m)) ;;;
      show_messages rest
  end.

Definition display_chat_history : M unit :=
  ms <- session_chat_history ;;
  show_messages ms.

(** Lines 143-163: one turn of the conversation. *)
Definition chat_turn (i : Inputs) (chat_client : Client) : M unit :=
  st Main (chat_input "Ask me about my projects...") ;;;
  match prompt i with
  | None => ret tt
  | Some text =>
      if String.eqb text "" then ret tt
      else
        chat_history_append {| role := "user"; content := text |} ;;;
        messages_append {| role := "user"; content := text |} ;;;
        st Main (chat_message "user") ;;;
        st (InChatMessage "user") (markdown text) ;;;
        st Main (chat_message "assistant") ;;;
        st (InChatMessage "assistant") (spinner "Searching project information...") ;;;
        msgs <- session_messages ;;
        response <- get_rag_response i chat_client msgs ;;
        st (InChatMessage "assistant") (markdown response) ;;;
        chat_history_append {| role := "assistant"; content := response |} ;;;
        messages_append {| role := "assistant"; content := response |}
  end.

(** Lines 166-181. *)
Definition footer : M unit :=
  st Main (markdown "---") ;;;
  st Main (markdown_html "<div style='text-align: center; color: gray;'>Powered by Azure OpenAI and Azure AI Search | Built with Streamlit</div>").

Definition example_prompts : M unit :=
  history <- session_chat_history ;;
  if Nat.eqb (length history) 0 then
    st Main (markdown "### 💡 Try asking about:") ;;;
    st Main (columns 3) ;;;
    clicked <- st_link_button (InColumn 1) "📚 Download My Project" "https://drive.google.com/file/d/1LRef3AGb0MA95blw5Y6uI5MSAjlFOUi_/view?usp=drive_link" ;;
    if clicked then st_rerun else ret tt
  else ret tt.

(** The whole script, top to bottom. *)
Definition script (i : Inputs) : M unit :=
  load_dotenv i ;;;
  st Main (page_config "Margie's Travel Assistant" "✈️" "wide") ;;;
  init_session_state ;;;
  st Main (title "My Project Assistant") ;;;
  st Main (markdown "*Your AI-powered project companion powered by Azure RAG*") ;;;
  chat_client <- initialize_azure_client i ;;
  match chat_client with
  | None => st_stop
  | Some chat_client =>
      sidebar i ;;;
      st Main (markdown "---") ;;;
      display_chat_history ;;;
      chat_turn i chat_client ;;;
      footer ;;;
      example_prompts
  end.

(** ** Runs *)

Definition result_of {A} (out : Result A * World * list Event) : Result A := out.1.1.
Definition world_of {A} (out : Result A * World * list Event) : World := out.1.2.
Definition trace_of {A} (out : Result A * World * list Event) : list Event := out.2.

(** The world a run leaves behind.  Whatever way the script ends
    (to its last line, [st.stop()], [st.rerun()]), the session state and the
    process keep what the run wrote. *)
Definition run (w : World) (i : Inputs) : World := world_of (script i w).

(** A process starts with some environment and an empty resource cache; a
    session starts with an empty session state. *)
Definition process_start (env : gmap string string) : World :=
  {| environ := env;
     resource_cache := None;
     session_state := {| messages := None; chat_history := None |} |}.

Definition new_session (w : World) : World :=
  set_session_state (fun _ => {| messages := None; chat_history := None |}) w.

Inductive reachable : World -> Prop :=
| reach_start env : reachable (process_start env)
| reach_run w i : reachable w -> reachable (run w i)
| reach_session w : reachable w -> reachable (new_session w).

(** ** Reading a run *)

(** The two lists as they stand once lines 82-88 have run. *)
Definition current_messages (w : World) : list Message :=
  default [system_prompt] (messages (session_state w)).

Definition current_history (w : World) : list Message :=
  default [] (chat_history (session_state w)).

(** The world once [load_dotenv()] and lines 82-88 have run. *)
Definition started (w : World) (i : Inputs) : World :=
  {| environ := environ w ∪ dotenv i;
     resource_cache := resource_cache w;
     session_state := {| messages := Some (current_messages w);
                         chat_history := Some (current_history w) |} |}.

(** The run obtains the client handle [c]. *)
Definition ready (w : World) (i : Inputs) (c : Client) : Prop :=
  result_of (initialize_azure_client i (started w i)) = Return (Some c).

(** The text of the turn, if the run performs one. *)
Definition turn_text (i : Inputs) : option string :=
  if clear_clicked i then None
  else match prompt i with
       | Some text => if String.eqb text "" then None else Some text
       | None => None
       end.

Definition user_message (text : string) : Message := {| role := "user"; content := text |}.
Definition assistant_message (text : string) : Message := {| role := "assistant"; content := text |}.

(** The request a turn sends for the messages [msgs] under the environment [env]. *)
Definition rag_request (env : gmap string string) (msgs : list Message) : Request :=
  {| model := env !! "CHAT_MODEL";
     request_messages := msgs;
     extra_body := rag_params (env !! "SEARCH_ENDPOINT") (env !! "INDEX_NAME")
                              (env !! "SEARCH_KEY") (env !! "EMBEDDING_MODEL") |}.

(** The text [get_rag_response] returns for an outcome of the remote call. *)
Definition reply_text (o : Outcome) : string :=
  match o with
  | Response (c :: _) => message_content c
  | Response [] => "Error: list index out of range"
  | Raises msg => "Error: " +:+ msg
  end.

(** The completion requests and the environment reads among the events of
    a run. *)
Definition requests (t : list Event) : list (Client * Request) :=
  omap (fun e => match e with Create c rq => Some (c, rq) | _ => None end) t.

Definition getenvs (t : list Event) : list string :=
  omap (fun e => match e with Getenv name => Some name | _ => None end) t.

Definition missing_configuration : Event :=
  Render Main (error "Missing Azure OpenAI configuration. Please check your .env file.").

Definition missing_text : string :=
  "Missing Azure OpenAI configuration. Please check your .env file.".

(** ** What a call and a run do, piece by piece *)

(** The handle built from an environment, and whether lines 20-23 accept it. *)
Definition azure_client (env : gmap string string) : Client :=
  {| api_version := Some "2024-12-01-preview";
     azure_endpoint := env !! "OPEN_AI_ENDPOINT";
     api_key := env !! "OPEN_AI_KEY" |}.

Definition configured (env : gmap string string) : bool :=
  truthy (env !! "OPEN_AI_ENDPOINT") && truthy (env !! "OPEN_AI_KEY").

Definition failed_to_initialize (msg : string) : Event :=
  Render Main (error ("Failed to initialize Azure client: " +:+ msg)).

(** What a call that finds the cache empty returns and does. *)
Definition cold_value (i : Inputs) (env : gmap string string) : option Client :=
  if configured env then
    match constructor_error i with
    | None => Some (azure_client env)
    | Some _ => None
    end
  else None.

Definition cold_trace (i : Inputs) (env : gmap string string) : list Event :=
  [Getenv "OPEN_AI_ENDPOINT"; Getenv "OPEN_AI_KEY"] ++
  (if configured env then
     match constructor_error i with
     | None => [Construct (azure_client env)]
     | Some msg => [failed_to_initialize msg]
     end
   else [missing_configuration]).

Definition cold_entry (i : Inputs) (env : gmap string string) : CacheEntry :=
  {| cached_value := cold_value i env;
     cached_elements := drawn (cold_trace i env) |}.

(** The entry the cache holds after a call, and the trace of the call, for
    the cache and the environment the call finds. *)
Definition entry_after (i : Inputs) (cache : option CacheEntry) (env : gmap string string)
  : CacheEntry :=
  match cache with
  | Some e => e
  | None => cold_entry i env
  end.

Definition initialize_trace (i : Inputs) (cache : option CacheEntry)
    (env : gmap string string) : list Event :=
  match cache with
  | Some e => replay (cached_elements e)
  | None => cold_trace i env
  end.

(** The elements drawn for the stored history and for the status panel. *)
Fixpoint history_events (ms : list Message) : list Event :=
  match ms with
  | [] => []
  | m :: rest =>
      Render Main (chat_message (role m)) ::
      Render (InChatMessage (role m)) (markdown (content m)) ::
      history_events rest
  end.

Definition panel_lines (env : gmap string string) : list Element :=
  [ status_line "Azure OpenAI Endpoint" (env !! "OPEN_AI_ENDPOINT");
    status_line "Chat Model" (env !! "CHAT_MODEL");
    status_line "Embedding Model" (env !! "EMBEDDING_MODEL");
    status_line "Search Endpoint" (env !! "SEARCH_ENDPOINT");
    status_line "Index Name" (env !! "INDEX_NAME") ].

Definition panel_events (env : gmap string string) : list Event :=
  [ Render Sidebar (markdown "---");
    Render Sidebar (markdown "### Configuration Status");
    Getenv "OPEN_AI_ENDPOINT"; Getenv "CHAT_MODEL"; Getenv "EMBEDDING_MODEL";
    Getenv "SEARCH_ENDPOINT"; Getenv "INDEX_NAME" ] ++
  map (Render Sidebar) (panel_lines env).

Definition heading_events : list Event :=
  [ Render Main (page_config "Margie's Travel Assistant" "✈️" "wide");
    Render Main (title "My Project Assistant");
    Render Main (markdown "*Your AI-powered project companion powered by Azure RAG*") ].

Definition controls_events : list Event :=
  [ Render Sidebar (header "Chat Controls");
    Render Sidebar (button "🗑️ Clear Chat History") ].

Definition about_events : list Event :=
  [ Render Sidebar (markdown "---");
    Render Sidebar (markdown "### About");
    Render Sidebar (markdown "This chatbot uses Azure RAG to provide information about the project I have worked on knowledge base. Download the project below") ].

Definition footer_events : list Event :=
  [ Render Main (markdown "---");
    Render Main (markdown_html "<div style='text-align: center; color: gray;'>Powered by Azure OpenAI and Azure AI Search | Built with Streamlit</div>") ].

Definition examples_events : list Event :=
  [ Render Main (markdown "### 💡 Try asking about:");
    Render Main (columns 3);
    Render (InColumn 1) (link_button "📚 Download My Project" "https://drive.google.com/file/d/1LRef3AGb0MA95blw5Y6uI5MSAjlFOUi_/view?usp=drive_link") ].

(** The world a run leaves, with the two lists given. *)
Definition world_with (w : World) (i : Inputs) (ms ch : list Message) : World :=
  {| environ := environ w ∪ dotenv i;
     resource_cache := Some (entry_after i (resource_cache w) (environ w ∪ dotenv i));
     session_state := {| messages := Some ms; chat_history := Some ch |} |}.

(** Everything the script does up to and including line 95. *)
Definition opening_events (w : World) (i : Inputs) : list Event :=
  heading_events ++ initialize_trace i (resource_cache w) (environ w ∪ dotenv i).

(** Everything drawn between line 100 and the chat input. *)
Definition page_events (w : World) (i : Inputs) : list Event :=
  controls_events ++ about_events ++ panel_events (environ w ∪ dotenv i) ++
  [Render Main (markdown "---")] ++ history_events (current_history w) ++
  [Render Main (chat_input "Ask me about my projects...")].

Definition turn_events (c : Client) (rq : Request) (text reply : string) : list Event :=
  [ Render Main (chat_message "user");
    Render (InChatMessage "user") (markdown text);
    Render Main (chat_message "assistant");
    Render (InChatMessage "assistant") (spinner "Searching project information...");
    Getenv "CHAT_MODEL"; Getenv "EMBEDDING_MODEL"; Getenv "SEARCH_ENDPOINT";
    Getenv "SEARCH_KEY"; Getenv "INDEX_NAME";
    Create c rq;
    Render (InChatMessage "assistant") (markdown reply) ].

(** The request and the reply of a turn. *)
Definition turn_request (w : World) (i : Inputs) (text : string) : Request :=
  rag_request (environ w ∪ dotenv i) (current_messages w ++ [user_message text]).

Definition turn_reply (w : World) (i : Inputs) (c : Client) (text : string) : string :=
  reply_text (completions_create i c (turn_request w i text)).

(** The two lists a run leaves in the session. *)
Definition next_lists (w : World) (i : Inputs) : list Message * list Message :=
  match cached_value (entry_after i (resource_cache w) (environ w ∪ dotenv i)) with
  | None => (current_messages w, current_history w)
  | Some c =>
      if clear_clicked i then ([clear_prompt], [])
      else match turn_text i with
           | Some text =>
               (current_messages w ++
                  [user_message text; assistant_message (turn_reply w i c text)],
                current_history w ++
                  [user_message text; assistant_message (turn_reply w i c text)])
           | None => (current_messages w, current_history w)
           end
  end.

(** ** Invariants of reachable worlds *)

(** The cache entry, when there is one, was computed by a call that found the
    cache empty, under an environment the present one extends. *)
Definition cache_inv (w : World) : Prop :=
  forall e, resource_cache w = Some e ->
    exists i0 env0, e = cold_entry i0 env0 /\ env0 ⊆ environ w.

(** The session either has not started or holds a system message followed by
    exactly the displayed history, which has no system message. *)
Definition lockstep (s : SessionState) : Prop :=
  exists seed ch,
    messages s = Some (seed :: ch) /\ chat_history s = Some ch /\
    role seed = "system" /\ Forall (fun m => role m <> "system") ch.

Definition session_inv (w : World) : Prop :=
  session_state w = {| messages := None; chat_history := None |} \/
  lockstep (session_state w).

(** ** Conversations and later calls *)

Fixpoint runs (w : World) (inputs : list Inputs) : World :=
  match inputs with
  | [] => w
  | i :: rest => runs (run w i) rest
  end.

(** The requests of each run of a sequence of runs. *)
Fixpoint session_requests (w : World) (inputs : list Inputs)
  : list (list (Client * Request)) :=
  match inputs with
  | [] => []
  | i :: rest => requests (trace_of (script i w)) :: session_requests (run w i) rest
  end.

(** The messages exchanged in turns with the given user texts and replies. *)
Fixpoint transcript (texts replies : list string) : list Message :=
  match texts, replies with
  | text :: texts', reply :: replies' =>
      user_message text :: assistant_message reply :: transcript texts' replies'
  | _, _ => []
  end.

(** What can happen to the world after some call: runs of the script, new
    sessions, and further calls of [initialize_azure_client]. *)
Inductive later (w : World) : World -> Prop :=
| later_refl : later w w
| later_run w' i : later w w' -> later w (run w' i)
| later_session w' : later w w' -> later w (new_session w')
| later_call w' i : later w w' -> later w (world_of (initialize_azure_client i w')).

(** The status lines of a page: what [st.success] and [st.error] drew in the
    sidebar. *)
Definition status_lines (t : list Event) : list Element :=
  omap (fun e => match e with
                 | Render Sidebar (success body) => Some (success body)
                 | Render Sidebar (error body) => Some (error body)
                 | _ => None
                 end) t.

(** ** Sample inputs *)

(** The values of the widgets when the user did nothing. *)
Definition idle (file : gmap string string) (remote : Client -> Request -> Outcome) : Inputs :=
  {| dotenv := file;
     clear_clicked := false;
     prompt := None;
     constructor_error := None;
     completions_create := remote |}.

Definition env_ok : gmap string string :=
  list_to_map [("OPEN_AI_ENDPOINT", "https://x.openai.azure.com");
               ("OPEN_AI_KEY", "k1");
               ("CHAT_MODEL", "gpt");
               ("SEARCH_KEY", "k2")].

Definition echo : Client -> Request -> Outcome :=
  fun _ rq => Response [ {| message_content := "ok" |} ].

Definition ask (text : string) (remote : Client -> Request -> Outcome) : Inputs :=
  {| dotenv := ∅;
     clear_clicked := false;
     prompt := Some text;
     constructor_error := None;
     completions_create := remote |}.

Definition timeout : Client -> Request -> Outcome := fun _ _ => Raises "timeout".

Definition click_clear : Inputs :=
  {| dotenv := ∅;
     clear_clicked := true;
     prompt := None;
     constructor_error := None;
     completions_create := echo |}.

Definition client_ok : Client := azure_client env_ok.

Definition two_turns : list Inputs := [ask "first" timeout; ask "second" echo].

(** A later [.env] file that brings other variables. *)
Definition other_file : gmap string string :=
  {[ "OPEN_AI_KEY" := "k9"; "INDEX_NAME" := "projects" ]}.

Definition env_without_key : gmap string string :=
  {[ "OPEN_AI_ENDPOINT" := "https://x.openai.azure.com" ]}.

Definition env_without_endpoint : gmap string string :=
  {[ "OPEN_AI_KEY" := "k1" ]}.

Definition env_minimal : gmap string string :=
  list_to_map [("OPEN_AI_ENDPOINT", "https://x.openai.azure.com"); ("OPEN_AI_KEY", "k1")].

Definition model_file : gmap string string := {[ "CHAT_MODEL" := "gpt-4o" ]}.

(** The inputs [i] with another [.env] file. *)
Definition with_dotenv (file : gmap string string) (i : Inputs) : Inputs :=
  {| dotenv := file;
     clear_clicked := clear_clicked i;
     prompt := prompt i;
     constructor_error := constructor_error i;
     completions_create := completions_create i |}.

(** Three runs of one process: a first page, a turn, and a turn after the
    [.env] file gained the chat model. *)
Definition three_runs : list Inputs :=
  [idle ∅ echo; ask "first" echo; with_dotenv model_file (ask "second" echo)].

(** ** Environment reads along a sequence of runs *)

(** The names read in each run of a sequence of runs, in order. *)
Fixpoint session_getenvs (w : World) (inputs : list Inputs) : list string :=
  match inputs with
  | [] => []
  | i :: rest => getenvs (trace_of (script i w)) ++ session_getenvs (run w i) rest
  end.

(** How many times a name occurs in a list of names. *)
Definition occurrences (name : string) (names : list string) : nat :=
  length (List.filter (String.eqb name) names).

(** ** Further readings of a trace *)

(** The clients built among the events of a run. *)
Definition constructions (t : list Event) : list Client :=
  omap (fun e => match e with Construct c => Some c | _ => None end) t.

(** The clients built in each run of a sequence of runs, in order. *)
Fixpoint session_constructions (w : World) (inputs : list Inputs) : list Client :=
  match inputs with
  | [] => []
  | i :: rest => constructions (trace_of (script i w)) ++ session_constructions (run w i) rest
  end.

(** The conversation a page shows: the markdown bodies drawn inside chat
    messages, each with the name of its chat message. *)
Definition chat_bubbles (t : list Event) : list Message :=
  omap (fun e => match e with
                 | Render (InChatMessage name) (markdown body) =>
                     Some {| role := name; content := body |}
                 | _ => None
                 end) t.

(** The links of the example row of a page. *)
Definition example_links (t : list Event) : list string :=
  omap (fun e => match e with
                 | Render (InColumn _) (link_button _ url) => Some url
                 | _ => None
                 end) t.

Definition project_url : string :=
  "https://drive.google.com/file/d/1LRef3AGb0MA95blw5Y6uI5MSAjlFOUi_/view?usp=drive_link".

(** More sample inputs. *)
Definition empty_prompt : Inputs :=
  {| dotenv := ∅;
     clear_clicked := false;
     prompt := Some "";
     constructor_error := None;
     completions_create := echo |}.

Definition no_choices : Client -> Request -> Outcome := fun _ _ => Response [].

Definition two_choices : Client -> Request -> Outcome :=
  fun _ _ => Response [ {| message_content := "first answer" |};
                        {| message_content := "second answer" |} ].

Definition broken_constructor : Inputs :=
  {| dotenv := ∅;
     clear_clicked := false;
     prompt := None;
     constructor_error := Some "connection refused";
     completions_create := echo |}.

Definition clear_and_ask : Inputs :=
  {| dotenv := ∅;
     clear_clicked := true;
     prompt := Some "hi";
     constructor_error := None;
     completions_create := echo |}.

(** * Proofs *)

(** ** Lemmas on the pieces *)

Lemma get_rag_response_eq i c msgs w :
  get_rag_response i c msgs w =
    (Return (reply_text (completions_create i c (rag_request (environ w) msgs))), w,
     [Getenv "CHAT_MODEL"; Getenv "EMBEDDING_MODEL"; Getenv "SEARCH_ENDPOINT";
      Getenv "SEARCH_KEY"; Getenv "INDEX_NAME";
      Create c (rag_request (environ w) msgs)]).
Proof.
  unfold get_rag_response, try_except, bind, os_getenv, emit, gets. cbn.
  fold (rag_request (environ w) msgs).
  destruct (completions_create i c (rag_request (environ w) msgs)) as [[|ch chs]|msg];
    reflexivity.
Qed.

Lemma initialize_cold i w :
  resource_cache w = None ->
  initialize_azure_client i w =
    (Return (cold_value i (environ w)),
     set_resource_cache (Some (cold_entry i (environ w))) w,
     cold_trace i (environ w)).
Proof.
  intros Hc.
  unfold initialize_azure_client, cache_resource. rewrite Hc.
  unfold cold_entry, cold_value, cold_trace, configured, initialize_azure_client_body,
    try_except, bind, os_getenv, AzureOpenAI, azure_client, st, emit, gets, ret, raise.
  cbn.
  destruct (truthy (environ w !! "OPEN_AI_ENDPOINT")),
           (truthy (environ w !! "OPEN_AI_KEY")); cbn; try reflexivity.
  destruct (constructor_error i); reflexivity.
Qed.

Lemma initialize_warm i w e :
  resource_cache w = Some e ->
  initialize_azure_client i w = (Return (cached_value e), w, replay (cached_elements e)).
Proof.
  intros Hc. unfold initialize_azure_client, cache_resource. now rewrite Hc.
Qed.

Lemma initialize_eq i w :
  initialize_azure_client i w =
    (Return (cached_value (entry_after i (resource_cache w) (environ w))),
     set_resource_cache (Some (entry_after i (resource_cache w) (environ w))) w,
     initialize_trace i (resource_cache w) (environ w)).
Proof.
  unfold entry_after, initialize_trace.
  destruct (resource_cache w) as [e|] eqn:Hc.
  - rewrite (initialize_warm i w e Hc). destruct w; cbn in *; now subst.
  - now rewrite (initialize_cold i w Hc).
Qed.

Lemma ready_entry w i c :
  ready w i c <->
  cached_value (entry_after i (resource_cache w) (environ w ∪ dotenv i)) = Some c.
Proof.
  unfold ready. rewrite initialize_eq. cbn. split; congruence.
Qed.

Lemma show_messages_eq ms w :
  show_messages ms w = (Return tt, w, history_events ms).
Proof.
  induction ms as [|m rest IH]; [reflexivity|].
  cbn. unfold bind, st, emit. cbn. now rewrite IH.
Qed.

Lemma configuration_status_eq w :
  configuration_status w = (Return tt, w, panel_events (environ w)).
Proof. reflexivity. Qed.

(** ** The four ways a run goes *)

Local Opaque initialize_azure_client get_rag_response show_messages configuration_status.

Ltac unfold_script :=
  unfold script, sidebar, chat_turn, display_chat_history, example_prompts, footer,
    clear_chat_history, chat_history_append, messages_append, session_chat_history,
    session_messages, init_session_state, load_dotenv, st_stop, st_rerun,
    st_link_button,
    bind, st, emit, modify, gets, ret, raise.

Ltac run_script :=
  repeat (cbn;
          rewrite ?initialize_eq, ?configuration_status_eq, ?show_messages_eq,
            ?get_rag_response_eq).

(** No handle: the run ends at [st.stop()] on line 98. *)
Lemma script_stop w i :
  cached_value (entry_after i (resource_cache w) (environ w ∪ dotenv i)) = None ->
  script i w =
    (Raise StopException,
     world_with w i (current_messages w) (current_history w),
     opening_events w i).
Proof.
  intros Hv. destruct w as [env cache [oms och]]. cbn in Hv.
  unfold_script.
  destruct oms as [ms|], och as [ch|]; run_script; rewrite Hv; run_script; now rewrite ?app_nil_r.
Qed.

(** The clear button: lines 105-109, the run ends at [st.rerun()]. *)
Lemma script_clear w i c :
  cached_value (entry_after i (resource_cache w) (environ w ∪ dotenv i)) = Some c ->
  clear_clicked i = true ->
  script i w =
    (Raise RerunException,
     world_with w i [clear_prompt] [],
     opening_events w i ++ controls_events).
Proof.
  intros Hv Hclear. destruct w as [env cache [oms och]]. cbn in Hv.
  unfold_script.
  destruct oms as [ms|], och as [ch|]; run_script; rewrite Hv; run_script; rewrite Hclear; run_script;
    now rewrite ?app_nil_r.
Qed.

Lemma turn_text_Some i text :
  turn_text i = Some text ->
  clear_clicked i = false /\ prompt i = Some text /\ String.eqb text "" = false.
Proof.
  unfold turn_text. destruct (clear_clicked i); [discriminate|].
  destruct (prompt i) as [p|]; [|discriminate].
  destruct (String.eqb p "") eqn:He; [discriminate|].
  intros [= <-]. auto.
Qed.

(** A turn: lines 143-163, and the run goes on to its last line. *)
Lemma script_turn w i c text :
  cached_value (entry_after i (resource_cache w) (environ w ∪ dotenv i)) = Some c ->
  turn_text i = Some text ->
  script i w =
    (Return tt,
     world_with w i
       (current_messages w ++ [user_message text; assistant_message (turn_reply w i c text)])
       (current_history w ++ [user_message text; assistant_message (turn_reply w i c text)]),
     opening_events w i ++ page_events w i ++
     turn_events c (turn_request w i text) text (turn_reply w i c text) ++
     footer_events).
Proof.
  intros Hv Ht. apply turn_text_Some in Ht as (Hclear & Hp & He).
  destruct w as [env cache [oms och]]. cbn in Hv.
  unfold turn_reply, turn_request, page_events.
  unfold_script.
  destruct oms as [ms|], och as [ch|]; run_script; rewrite Hv; run_script;
    rewrite Hclear; run_script; rewrite Hp; run_script; rewrite He; run_script;
    rewrite ?length_app, ?Nat.add_1_r; cbn;
    unfold world_with, current_messages, current_history, user_message, assistant_message;
    cbn; rewrite <- ?app_assoc; cbn; rewrite ?app_nil_r; reflexivity.
Qed.

Lemma turn_text_None i :
  clear_clicked i = false -> turn_text i = None ->
  prompt i = None \/ prompt i = Some "".
Proof.
  unfold turn_text. intros ->. destruct (prompt i) as [p|]; [|auto].
  destruct (String.eqb p "") eqn:He; [|discriminate].
  apply String.eqb_eq in He as ->. auto.
Qed.

(** Neither the clear button nor a prompt: the page is drawn and nothing is
    written to the session; with an empty history the run ends at the
    [st.rerun()] of line 181. *)
Lemma script_idle w i c :
  cached_value (entry_after i (resource_cache w) (environ w ∪ dotenv i)) = Some c ->
  clear_clicked i = false ->
  turn_text i = None ->
  script i w =
    ((if Nat.eqb (length (current_history w)) 0
      then Raise RerunException else Return tt),
     world_with w i (current_messages w) (current_history w),
     opening_events w i ++ page_events w i ++ footer_events ++
     (if Nat.eqb (length (current_history w)) 0 then examples_events else [])).
Proof.
  intros Hv Hclear Ht. destruct (turn_text_None i Hclear Ht) as [Hp|Hp];
  destruct w as [env cache [oms och]]; cbn in Hv;
  unfold page_events; unfold_script;
  destruct oms as [ms|], och as [ch|]; run_script; rewrite Hv; run_script;
    rewrite Hclear; run_script; rewrite Hp; run_script;
    unfold world_with, current_messages, current_history; cbn;
    try (destruct (length ch =? 0)%nat; cbn);
    rewrite <- ?app_assoc; cbn; rewrite ?app_nil_r; reflexivity.
Qed.

Lemma run_eq w i :
  run w i = world_with w i (next_lists w i).1 (next_lists w i).2.
Proof.
  unfold run, next_lists.
  destruct (cached_value _) as [c|] eqn:Hv.
  - destruct (clear_clicked i) eqn:Hclear.
    + now rewrite (script_clear w i c Hv Hclear).
    + destruct (turn_text i) as [text|] eqn:Ht.
      * now rewrite (script_turn w i c text Hv Ht).
      * now rewrite (script_idle w i c Hv Hclear Ht).
  - now rewrite (script_stop w i Hv).
Qed.

(** ** What the parts of a trace contain *)

Lemma requests_app t1 t2 : requests (t1 ++ t2) = requests t1 ++ requests t2.
Proof. apply omap_app. Qed.

Lemma getenvs_app t1 t2 : getenvs (t1 ++ t2) = getenvs t1 ++ getenvs t2.
Proof. apply omap_app. Qed.

Lemma drawn_app t1 t2 : drawn (t1 ++ t2) = drawn t1 ++ drawn t2.
Proof. apply omap_app. Qed.

Lemma requests_replay l : requests (replay l) = [].
Proof. induction l as [|[p e] l IH]; [reflexivity|exact IH]. Qed.

Lemma getenvs_replay l : getenvs (replay l) = [].
Proof. induction l as [|[p e] l IH]; [reflexivity|exact IH]. Qed.

Lemma drawn_replay l : drawn (replay l) = l.
Proof. induction l as [|[p e] l IH]; [reflexivity|]. cbn. now f_equal. Qed.

Lemma requests_cold i env : requests (cold_trace i env) = [].
Proof.
  unfold cold_trace. destruct (configured env); [|reflexivity].
  destruct (constructor_error i); reflexivity.
Qed.

Lemma requests_initialize i cache env : requests (initialize_trace i cache env) = [].
Proof.
  destruct cache as [e|]; [apply requests_replay|apply requests_cold].
Qed.

Lemma requests_history ms : requests (history_events ms) = [].
Proof. induction ms as [|m ms IH]; [reflexivity|exact IH]. Qed.

Lemma getenvs_history ms : getenvs (history_events ms) = [].
Proof. induction ms as [|m ms IH]; [reflexivity|exact IH]. Qed.

Lemma requests_opening w i : requests (opening_events w i) = [].
Proof.
  unfold opening_events. rewrite requests_app. cbn. apply requests_initialize.
Qed.

Lemma requests_page w i : requests (page_events w i) = [].
Proof.
  unfold page_events. rewrite !requests_app, requests_history. reflexivity.
Qed.

(** The only request of a turn is the one of line 70. *)
Lemma requests_turn w i c text :
  cached_value (entry_after i (resource_cache w) (environ w ∪ dotenv i)) = Some c ->
  turn_text i = Some text ->
  requests (trace_of (script i w)) = [(c, turn_request w i text)].
Proof.
  intros Hv Ht. rewrite (script_turn w i c text Hv Ht). unfold trace_of. cbn [snd].
  rewrite !requests_app, requests_opening, requests_page. reflexivity.
Qed.

(** A run without a turn sends nothing. *)
Lemma requests_no_turn w i :
  turn_text i = None -> requests (trace_of (script i w)) = [].
Proof.
  intros Ht.
  destruct (cached_value (entry_after i (resource_cache w) (environ w ∪ dotenv i)))
    as [c|] eqn:Hv.
  - destruct (clear_clicked i) eqn:Hclear.
    + rewrite (script_clear w i c Hv Hclear). unfold trace_of. cbn [snd].
      rewrite requests_app, requests_opening. reflexivity.
    + rewrite (script_idle w i c Hv Hclear Ht). unfold trace_of. cbn [snd].
      rewrite !requests_app, requests_opening, requests_page.
      now destruct (length (current_history w) =? 0)%nat.
  - rewrite (script_stop w i Hv). apply requests_opening.
Qed.

(** ** Reachable worlds keep their invariants *)

Lemma environ_run w i : environ (run w i) = environ w ∪ dotenv i.
Proof. now rewrite run_eq. Qed.

Lemma resource_cache_run w i :
  resource_cache (run w i) =
    Some (entry_after i (resource_cache w) (environ w ∪ dotenv i)).
Proof. now rewrite run_eq. Qed.

Lemma session_run w i :
  session_state (run w i) =
    {| messages := Some (next_lists w i).1; chat_history := Some (next_lists w i).2 |}.
Proof. now rewrite run_eq. Qed.

Lemma cache_inv_run w i : cache_inv w -> cache_inv (run w i).
Proof.
  intros Hinv e. rewrite resource_cache_run, environ_run. intros [= <-].
  unfold entry_after. destruct (resource_cache w) as [e0|] eqn:Hc.
  - destruct (Hinv e0 Hc) as (i0 & env0 & -> & Hsub).
    exists i0, env0. split; [reflexivity|].
    etrans; [exact Hsub|]. apply map_union_subseteq_l.
  - exists i, (environ w ∪ dotenv i). split; reflexivity.
Qed.

Lemma reachable_cache_inv w : reachable w -> cache_inv w.
Proof.
  induction 1 as [env|w i _ IH|w _ IH].
  - intros e. discriminate.
  - now apply cache_inv_run.
  - exact IH.
Qed.

Lemma truthy_weaken (env0 env : gmap string string) name :
  env0 ⊆ env -> truthy (env0 !! name) = true -> truthy (env !! name) = true.
Proof.
  intros Hsub. destruct (env0 !! name) as [v|] eqn:Hv; [|discriminate].
  now rewrite (lookup_weaken _ _ _ _ Hv Hsub).
Qed.

Lemma configured_weaken (env0 env : gmap string string) :
  env0 ⊆ env -> configured env0 = true -> configured env = true.
Proof.
  unfold configured. intros Hsub [H1 H2]%andb_prop.
  now rewrite (truthy_weaken _ _ _ Hsub H1), (truthy_weaken _ _ _ Hsub H2).
Qed.

Lemma cold_entry_unconfigured i env :
  configured env = false ->
  cold_entry i env =
    {| cached_value := None;
       cached_elements :=
         [(Main, error "Missing Azure OpenAI configuration. Please check your .env file.")] |}.
Proof. unfold cold_entry, cold_value, cold_trace. now intros ->. Qed.

Lemma cold_entry_client i env c :
  cached_value (cold_entry i env) = Some c ->
  cold_entry i env = {| cached_value := Some c; cached_elements := [] |} /\
  c = azure_client env /\ configured env = true /\ constructor_error i = None.
Proof.
  unfold cold_entry, cold_value, cold_trace. cbn.
  destruct (configured env); [|discriminate].
  destruct (constructor_error i); [discriminate|].
  intros [= <-]. auto.
Qed.

(** In a reachable world a cached handle comes with no stored element. *)
Lemma reachable_entry_client w i c :
  cache_inv w ->
  cached_value (entry_after i (resource_cache w) (environ w ∪ dotenv i)) = Some c ->
  entry_after i (resource_cache w) (environ w ∪ dotenv i) =
    {| cached_value := Some c; cached_elements := [] |}.
Proof.
  intros Hinv. unfold entry_after. destruct (resource_cache w) as [e|] eqn:Hc.
  - destruct (Hinv e Hc) as (i0 & env0 & -> & _). intros H.
    now apply cold_entry_client in H as [H _].
  - intros H. now apply cold_entry_client in H as [H _].
Qed.

(** In a reachable world an unconfigured environment leaves only the entry
    of the missing-configuration error. *)
Lemma reachable_entry_unconfigured w i :
  cache_inv w ->
  configured (environ w ∪ dotenv i) = false ->
  entry_after i (resource_cache w) (environ w ∪ dotenv i) =
    {| cached_value := None;
       cached_elements :=
         [(Main, error "Missing Azure OpenAI configuration. Please check your .env file.")] |}.
Proof.
  intros Hinv Hconf. unfold entry_after. destruct (resource_cache w) as [e|] eqn:Hc.
  - destruct (Hinv e Hc) as (i0 & env0 & -> & Hsub).
    apply cold_entry_unconfigured.
    destruct (configured env0) eqn:H0; [|reflexivity].
    assert (configured (environ w ∪ dotenv i) = true) as H1.
    { eapply configured_weaken; [|exact H0].
      etrans; [exact Hsub|]. apply map_union_subseteq_l. }
    congruence.
  - now apply cold_entry_unconfigured.
Qed.

Lemma lockstep_next w i :
  session_inv w ->
  lockstep {| messages := Some (next_lists w i).1; chat_history := Some (next_lists w i).2 |}.
Proof.
  intros Hinv.
  assert (exists seed, current_messages w = seed :: current_history w /\
                       role seed = "system" /\
                       Forall (fun m => role m <> "system") (current_history w))
    as (seed & Hms & Hseed & Hch).
  { unfold current_messages, current_history.
    destruct Hinv as [->|(seed & ch & -> & -> & Hseed & Hch)]; cbn.
    - exists system_prompt. repeat split. constructor.
    - exists seed. auto. }
  unfold next_lists.
  destruct (cached_value _) as [c|].
  - destruct (clear_clicked i).
    + exists clear_prompt, []. repeat split. constructor.
    + destruct (turn_text i) as [text|].
      * exists seed, (current_history w ++
                        [user_message text; assistant_message (turn_reply w i c text)]).
        cbn. rewrite Hms. repeat split; [assumption|].
        apply Forall_app. split; [assumption|].
        repeat constructor; discriminate.
      * exists seed, (current_history w). cbn. rewrite Hms. auto.
  - exists seed, (current_history w). cbn. rewrite Hms. auto.
Qed.

Lemma reachable_session_inv w : reachable w -> session_inv w.
Proof.
  induction 1 as [env|w i _ IH|w _ IH].
  - now left.
  - right. rewrite session_run. now apply lockstep_next.
  - now left.
Qed.

(** ** The clear button *)

(** C1.  The clear action leaves one system message and an empty displayed
    history, but the message is not the one the session starts with: after a
    session start, one turn and a click on the clear button, the message
    sequence is the travel-assistant prompt of line 107, while the session
    started with the project prompt of line 84. *)
Theorem clear_reseeds_with_another_prompt :
  let w0 := run (process_start env_ok) (idle ∅ echo) in
  let w1 := run w0 (ask "What projects have you worked on?" echo) in
  let w2 := run w1 click_clear in
  messages (session_state w0) = Some [system_prompt] /\
  length (current_messages w1) = 3 /\
  messages (session_state w2) = Some [clear_prompt] /\
  chat_history (session_state w2) = Some [] /\
  role clear_prompt = "system" /\
  clear_prompt <> system_prompt.
Proof.
  cbv zeta. repeat split; try (vm_compute; reflexivity). discriminate.
Qed.

(** ** A turn *)

Lemma ready_again w i c i' :
  ready w i c -> ready (run w i) i' c.
Proof.
  rewrite !ready_entry, resource_cache_run. cbn. auto.
Qed.

(** C2.  When the completion call of a turn raises an exception whose message
    is [m], [get_rag_response] returns the text "Error: " followed by [m];
    the run goes on to the last line of the script without raising; the
    text is drawn as the assistant's reply and appended, as the assistant
    message, to both lists; and the handle is still there for the next run. *)
Theorem error_reply_is_appended w i c text m :
  ready w i c ->
  turn_text i = Some text ->
  completions_create i c (turn_request w i text) = Raises m ->
  result_of (get_rag_response i c (current_messages w ++ [user_message text])
               (started w i)) = Return ("Error: " +:+ m) /\
  result_of (script i w) = Return tt /\
  messages (session_state (run w i)) =
    Some (current_messages w ++
            [user_message text; assistant_message ("Error: " +:+ m)]) /\
  chat_history (session_state (run w i)) =
    Some (current_history w ++
            [user_message text; assistant_message ("Error: " +:+ m)]) /\
  In (Render (InChatMessage "assistant") (markdown ("Error: " +:+ m)))
     (trace_of (script i w)) /\
  forall i', ready (run w i) i' c.
Proof.
  intros Hready Ht Hm.
  pose proof (proj1 (ready_entry w i c) Hready) as Hv.
  assert (turn_reply w i c text = "Error: " +:+ m) as Hreply.
  { unfold turn_reply. now rewrite Hm. }
  split.
  { rewrite get_rag_response_eq. unfold result_of. cbn [fst].
    f_equal. exact Hreply. }
  unfold run. rewrite (script_turn w i c text Hv Ht), Hreply.
  unfold result_of, world_of, trace_of. cbn [fst snd].
  repeat split.
  - rewrite !in_app_iff. right. right. left. cbn. tauto.
  - intros i'. pose proof (ready_again w i c i' Hready) as H.
    unfold run in H. now rewrite (script_turn w i c text Hv Ht), Hreply in H.
Qed.

Lemma error_reply_is_appended_witness :
  messages (session_state (run (process_start env_ok) (ask "hi" timeout))) =
    Some [system_prompt; user_message "hi"; assistant_message "Error: timeout"].
Proof.
  destruct (error_reply_is_appended (process_start env_ok) (ask "hi" timeout)
              client_ok "hi" "timeout") as (_ & _ & H & _).
  - vm_compute. reflexivity.
  - reflexivity.
  - reflexivity.
  - exact H.
Defined.

(** C3.  In a turn, the one request of the run carries the message sequence
    with the user message appended (one more than before), and the run
    leaves that sequence with one assistant message appended (two more than
    before), whatever the remote call does. *)
Theorem turn_grows_by_two w i c text :
  ready w i c ->
  turn_text i = Some text ->
  exists rq reply,
    requests (trace_of (script i w)) = [(c, rq)] /\
    request_messages rq = current_messages w ++ [user_message text] /\
    length (request_messages rq) = length (current_messages w) + 1 /\
    reply = reply_text (completions_create i c rq) /\
    messages (session_state (run w i)) =
      Some (request_messages rq ++ [assistant_message reply]) /\
    length (request_messages rq ++ [assistant_message reply]) =
      length (current_messages w) + 2.
Proof.
  intros Hready Ht.
  pose proof (proj1 (ready_entry w i c) Hready) as Hv.
  exists (turn_request w i text), (turn_reply w i c text).
  split; [now apply requests_turn|].
  split; [reflexivity|].
  split; [cbn; rewrite length_app; reflexivity|].
  split; [reflexivity|].
  split.
  - unfold run. rewrite (script_turn w i c text Hv Ht). cbn.
    now rewrite <- app_assoc.
  - cbn. rewrite !length_app. cbn. lia.
Qed.

Lemma turn_grows_by_two_witness :
  exists rq reply,
    requests (trace_of (script (ask "What projects have you worked on?" timeout)
                          (process_start env_ok))) = [(client_ok, rq)] /\
    request_messages rq =
      [system_prompt; user_message "What projects have you worked on?"] /\
    length (request_messages rq) = 2 /\
    reply = reply_text (timeout client_ok rq) /\
    messages (session_state (run (process_start env_ok)
                               (ask "What projects have you worked on?" timeout))) =
      Some (request_messages rq ++ [assistant_message reply]) /\
    length (request_messages rq ++ [assistant_message reply]) = 3.
Proof.
  apply (turn_grows_by_two (process_start env_ok)
           (ask "What projects have you worked on?" timeout) client_ok
           "What projects have you worked on?").
  - vm_compute. reflexivity.
  - reflexivity.
Defined.

(** C9.  The request of a turn is made of the chat model, the whole message
    sequence with the new user message, and one data source of type
    "azure_search" with the search endpoint, the index name, API-key
    authentication with the search key, the query type "vector" and the
    embedding deployment, all as the environment gives them. *)
Theorem request_has_retrieval_block w i c text :
  ready w i c ->
  turn_text i = Some text ->
  requests (trace_of (script i w)) =
    [(c,
      {| model := (environ w ∪ dotenv i) !! "CHAT_MODEL";
         request_messages := current_messages w ++ [user_message text];
         extra_body :=
           {| data_sources :=
                [ {| source_type := "azure_search";
                     parameters :=
                       {| endpoint := (environ w ∪ dotenv i) !! "SEARCH_ENDPOINT";
                          index_name := (environ w ∪ dotenv i) !! "INDEX_NAME";
                          authentication :=
                            {| auth_type := "api_key";
                               key := (environ w ∪ dotenv i) !! "SEARCH_KEY" |};
                          query_type := "vector";
                          embedding_dependency :=
                            {| dependency_type := "deployment_name";
                               deployment_name :=
                                 (environ w ∪ dotenv i) !! "EMBEDDING_MODEL" |} |} |} ] |} |})].
Proof.
  intros Hready Ht.
  pose proof (proj1 (ready_entry w i c) Hready) as Hv.
  now rewrite (requests_turn w i c text Hv Ht).
Qed.

Lemma request_has_retrieval_block_witness :
  requests (trace_of (script (ask "hi" echo) (process_start env_ok))) =
    [(client_ok,
      {| model := Some "gpt";
         request_messages := [system_prompt; user_message "hi"];
         extra_body :=
           {| data_sources :=
                [ {| source_type := "azure_search";
                     parameters :=
                       {| endpoint := None;
                          index_name := None;
                          authentication :=
                            {| auth_type := "api_key"; key := Some "k2" |};
                          query_type := "vector";
                          embedding_dependency :=
                            {| dependency_type := "deployment_name";
                               deployment_name := None |} |} |} ] |} |})].
Proof.
  apply (request_has_retrieval_block (process_start env_ok) (ask "hi" echo) client_ok "hi").
  - vm_compute. reflexivity.
  - reflexivity.
Defined.

(** ** A conversation of several turns *)

Lemma current_messages_turn w i c text :
  cached_value (entry_after i (resource_cache w) (environ w ∪ dotenv i)) = Some c ->
  turn_text i = Some text ->
  current_messages (run w i) =
    current_messages w ++ [user_message text; assistant_message (turn_reply w i c text)].
Proof.
  intros Hv Ht. unfold run. now rewrite (script_turn w i c text Hv Ht).
Qed.

(** C4.  In a conversation of turns with the user texts [texts], the request
    of turn [n] carries everything the session held before the conversation
    (the seed system message, for a conversation that opens the session),
    then the user and assistant messages of the turns before [n] (the
    assistant texts are the replies recorded, error texts included), then
    the new user message; nothing is dropped. *)
Theorem request_carries_full_history inputs : forall w c texts,
  (forall i, head inputs = Some i -> ready w i c) ->
  map turn_text inputs = map Some texts ->
  exists replies,
    length replies = length texts /\
    current_messages (runs w inputs) = current_messages w ++ transcript texts replies /\
    forall n text, texts !! n = Some text ->
      exists rq,
        session_requests w inputs !! n = Some [(c, rq)] /\
        request_messages rq =
          current_messages w ++ transcript (take n texts) (take n replies) ++
          [user_message text].
Proof.
  induction inputs as [|i rest IH]; intros w c texts Hready Hturns.
  - destruct texts; [|discriminate]. exists []. repeat split.
    + cbn. now rewrite app_nil_r.
    + intros n text H. now rewrite lookup_nil in H.
  - destruct texts as [|text texts']; [discriminate|].
    cbn in Hturns. injection Hturns as Ht Hrest.
    pose proof (Hready i eq_refl) as Hr.
    pose proof (proj1 (ready_entry w i c) Hr) as Hv.
    destruct (IH (run w i) c texts') as (replies' & Hlen & Hfinal & Hreq).
    { intros i' _. now apply ready_again. }
    { exact Hrest. }
    exists (turn_reply w i c text :: replies'). repeat split.
    + cbn. now rewrite Hlen.
    + cbn. rewrite Hfinal, (current_messages_turn w i c text Hv Ht).
      now rewrite <- app_assoc.
    + intros [|n] text' Hn.
      * cbn in Hn. injection Hn as <-.
        exists (turn_request w i text). split; [|reflexivity].
        rewrite <- (requests_turn w i c text Hv Ht). reflexivity.
      * cbn in Hn. destruct (Hreq n text' Hn) as (rq & Hsent & Hmsgs).
        exists rq. split; [exact Hsent|].
        rewrite Hmsgs, (current_messages_turn w i c text Hv Ht).
        cbn. now rewrite <- app_assoc.
Qed.

Lemma request_carries_full_history_witness :
  exists replies,
    length replies = 2 /\
    current_messages (runs (process_start env_ok) two_turns) =
      [system_prompt] ++ transcript ["first"; "second"] replies /\
    forall n text, ["first"; "second"] !! n = Some text ->
      exists rq,
        session_requests (process_start env_ok) two_turns !! n = Some [(client_ok, rq)] /\
        request_messages rq =
          [system_prompt] ++
          transcript (take n ["first"; "second"]) (take n replies) ++
          [user_message text].
Proof.
  apply (request_carries_full_history two_turns (process_start env_ok) client_ok
           ["first"; "second"]).
  - intros i [= <-]. vm_compute. reflexivity.
  - reflexivity.
Defined.

(** The second request of the sample conversation, spelled out: the seed,
    the first turn with its error text, and the new user message. *)
Example second_request_of_two_turns :
  map (map (fun cr => request_messages cr.2))
      (session_requests (process_start env_ok) two_turns) =
    [ [[system_prompt; user_message "first"]];
      [[system_prompt; user_message "first"; assistant_message "Error: timeout";
        user_message "second"]] ].
Proof. vm_compute. reflexivity. Qed.

(** ** The memoized handle *)

Lemma later_keeps_entry w w' e :
  resource_cache w = Some e -> later w w' -> resource_cache w' = Some e.
Proof.
  intros Hc. induction 1 as [|w' i _ IH|w' _ IH|w' i _ IH].
  - exact Hc.
  - rewrite resource_cache_run, IH. reflexivity.
  - exact IH.
  - rewrite initialize_eq, IH. reflexivity.
Qed.

(** C8.  Once the first call of [initialize_azure_client] in a process has
    returned a handle, every later call in that process, whatever the
    environment and the inputs then are, returns the same handle, leaves the
    world as it is, and does nothing else: no environment read and no
    construction of a client. *)
Theorem initialize_is_memoized w i c w' i' :
  resource_cache w = None ->
  result_of (initialize_azure_client i w) = Return (Some c) ->
  later (world_of (initialize_azure_client i w)) w' ->
  initialize_azure_client i' w' = (Return (Some c), w', []).
Proof.
  intros Hcold Hres Hlater.
  rewrite (initialize_cold i w Hcold) in Hres, Hlater.
  unfold result_of, world_of in *. cbn [fst snd] in *.
  injection Hres as Hval.
  destruct (cold_entry_client i (environ w) c Hval) as (Hentry & _).
  rewrite Hentry in Hlater.
  assert (resource_cache w' = Some {| cached_value := Some c; cached_elements := [] |})
    as Hkept by (eapply later_keeps_entry; [|exact Hlater]; reflexivity).
  rewrite (initialize_warm i' w' _ Hkept). reflexivity.
Qed.

Lemma initialize_is_memoized_witness :
  initialize_azure_client (idle ∅ timeout)
    (run (world_of (initialize_azure_client (idle ∅ echo) (process_start env_ok)))
         (idle other_file echo)) =
    (Return (Some client_ok),
     run (world_of (initialize_azure_client (idle ∅ echo) (process_start env_ok)))
         (idle other_file echo),
     []).
Proof.
  apply (initialize_is_memoized (process_start env_ok) (idle ∅ echo)).
  - reflexivity.
  - vm_compute. reflexivity.
  - apply later_run, later_refl.
Defined.

(** ** The two lists of the session *)

(** C10.  After every run of the script in a reachable world (the first run
    of a session, a turn, a click on the clear button, a run that does
    nothing, a run that stops for want of a handle) the message sequence is
    one system message followed by exactly the displayed history, so it is
    one longer than the history, and the history holds no system message. *)
Theorem lists_stay_in_lockstep w i :
  reachable w ->
  exists seed ms ch,
    messages (session_state (run w i)) = Some ms /\
    chat_history (session_state (run w i)) = Some ch /\
    ms = seed :: ch /\
    role seed = "system" /\
    length ms = length ch + 1 /\
    Forall (fun m => role m <> "system") ch.
Proof.
  intros Hreach. apply reachable_session_inv in Hreach.
  destruct (lockstep_next w i Hreach) as (seed & ch & Hms & Hch & Hseed & Hall).
  rewrite session_run. exists seed, (seed :: ch), ch.
  cbn in Hms, Hch. rewrite Hms, Hch.
  repeat split; [assumption|cbn; lia|assumption].
Qed.

Lemma lists_stay_in_lockstep_witness :
  exists seed ms ch,
    messages (session_state
                (run (run (process_start env_ok) (ask "hi" timeout)) click_clear)) = Some ms /\
    chat_history (session_state
                (run (run (process_start env_ok) (ask "hi" timeout)) click_clear)) = Some ch /\
    ms = seed :: ch /\
    role seed = "system" /\
    length ms = length ch + 1 /\
    Forall (fun m => role m <> "system") ch.
Proof.
  apply (lists_stay_in_lockstep (run (process_start env_ok) (ask "hi" timeout)) click_clear).
  apply reach_run, reach_start.
Defined.

(** ** Missing configuration *)

(** C5, as stated, fails: what the page shows when the key is missing and
    what it shows when the endpoint is missing are the same, so nothing on
    the page tells which of the two values is missing. *)
Lemma missing_value_is_not_described :
  ~ exists describe : list (Place * Element) -> string,
      describe (drawn (trace_of (script (idle ∅ echo) (process_start env_without_key))))
        = "OPEN_AI_KEY" /\
      describe (drawn (trace_of (script (idle ∅ echo) (process_start env_without_endpoint))))
        = "OPEN_AI_ENDPOINT".
Proof.
  intros (describe & H1 & H2).
  assert (drawn (trace_of (script (idle ∅ echo) (process_start env_without_key))) =
          drawn (trace_of (script (idle ∅ echo) (process_start env_without_endpoint))))
    as Heq by (vm_compute; reflexivity).
  rewrite Heq, H2 in H1. discriminate.
Qed.

Lemma drawn_initialize_unconfigured w i :
  cache_inv w ->
  configured (environ w ∪ dotenv i) = false ->
  drawn (initialize_trace i (resource_cache w) (environ w ∪ dotenv i)) =
    [(Main, error missing_text)].
Proof.
  intros Hinv Hconf. unfold initialize_trace.
  destruct (resource_cache w) as [e|] eqn:Hc.
  - pose proof (reachable_entry_unconfigured w i Hinv Hconf) as He.
    unfold entry_after in He. rewrite Hc in He. rewrite He. reflexivity.
  - unfold cold_trace. rewrite Hconf. reflexivity.
Qed.

(** C5, amended.  In a reachable world, when the endpoint URL or the API key
    is absent from the environment or empty, [initialize_azure_client]
    returns [None] without raising and shows the one fixed error text (which
    names no variable); the run ends at [st.stop()] having drawn the page
    heading and that error only, sent no request and left both lists of the
    session as lines 82-88 set them. *)
Theorem missing_configuration_halts w i :
  reachable w ->
  truthy ((environ w ∪ dotenv i) !! "OPEN_AI_ENDPOINT") = false \/
  truthy ((environ w ∪ dotenv i) !! "OPEN_AI_KEY") = false ->
  result_of (initialize_azure_client i (started w i)) = Return None /\
  drawn (trace_of (initialize_azure_client i (started w i))) =
    [(Main, error "Missing Azure OpenAI configuration. Please check your .env file.")] /\
  result_of (script i w) = Raise StopException /\
  drawn (trace_of (script i w)) =
    drawn heading_events ++
    [(Main, error "Missing Azure OpenAI configuration. Please check your .env file.")] /\
  requests (trace_of (script i w)) = [] /\
  messages (session_state (run w i)) = Some (current_messages w) /\
  chat_history (session_state (run w i)) = Some (current_history w).
Proof.
  intros Hreach Hmiss. apply reachable_cache_inv in Hreach.
  assert (configured (environ w ∪ dotenv i) = false) as Hconf.
  { unfold configured. destruct Hmiss as [-> | ->]; [reflexivity|apply andb_false_r]. }
  pose proof (reachable_entry_unconfigured w i Hreach Hconf) as He.
  pose proof (drawn_initialize_unconfigured w i Hreach Hconf) as Hd.
  assert (cached_value (entry_after i (resource_cache w) (environ w ∪ dotenv i)) = None)
    as Hv by now rewrite He.
  rewrite initialize_eq. unfold run. rewrite (script_stop w i Hv).
  unfold result_of, world_of, trace_of. cbn [fst snd started environ resource_cache].
  repeat split.
  - now rewrite Hv.
  - exact Hd.
  - unfold opening_events. now rewrite drawn_app, Hd.
  - apply requests_opening.
Qed.

Lemma missing_configuration_halts_witness :
  result_of (script (ask "hi" echo)
               (run (process_start env_without_key) (idle ∅ echo))) =
    Raise StopException.
Proof.
  destruct (missing_configuration_halts
              (run (process_start env_without_key) (idle ∅ echo)) (ask "hi" echo))
    as (_ & _ & H & _).
  - apply reach_run, reach_start.
  - right. vm_compute. reflexivity.
  - exact H.
Defined.

(** ** The configuration status panel *)

Lemma status_lines_app t1 t2 : status_lines (t1 ++ t2) = status_lines t1 ++ status_lines t2.
Proof. apply omap_app. Qed.

Lemma status_lines_history ms : status_lines (history_events ms) = [].
Proof. induction ms as [|m ms IH]; [reflexivity|exact IH]. Qed.

Lemma status_lines_panel env : status_lines (panel_events env) = panel_lines env.
Proof.
  unfold panel_events, panel_lines, status_line. cbn.
  repeat match goal with |- context [truthy ?v] => destruct (truthy v) end;
    reflexivity.
Qed.

Lemma status_lines_opening w i c :
  cache_inv w ->
  cached_value (entry_after i (resource_cache w) (environ w ∪ dotenv i)) = Some c ->
  status_lines (opening_events w i) = [].
Proof.
  intros Hinv Hv. pose proof (reachable_entry_client w i c Hinv Hv) as He.
  unfold opening_events, initialize_trace. unfold entry_after in He, Hv.
  destruct (resource_cache w) as [e|].
  - rewrite He. reflexivity.
  - apply cold_entry_client in Hv as (_ & _ & Hconf & Hctor).
    unfold cold_trace. rewrite Hconf, Hctor. reflexivity.
Qed.

Lemma status_lines_page w i :
  status_lines (page_events w i) = panel_lines (environ w ∪ dotenv i).
Proof.
  unfold page_events.
  rewrite !status_lines_app, status_lines_panel, status_lines_history.
  cbn. now rewrite ?app_nil_r.
Qed.

(** C6, as stated, fails: the panel of a fully drawn page has five lines, not
    seven, and none of them is for a key: with the search key taken out of
    the environment the panel is the same. *)
Lemma status_panel_has_no_line_for_keys :
  length (status_lines (trace_of (script (idle ∅ echo) (process_start env_ok)))) <> 7 /\
  env_ok !! "SEARCH_KEY" <> delete "SEARCH_KEY" env_ok !! "SEARCH_KEY" /\
  status_lines (trace_of (script (idle ∅ echo) (process_start env_ok))) =
  status_lines (trace_of (script (idle ∅ echo)
                            (process_start (delete "SEARCH_KEY" env_ok)))).
Proof.
  repeat split; vm_compute; congruence.
Qed.

(** C6, amended.  On every page drawn past the clear button, the panel has
    exactly five status lines, in this order: endpoint URL, chat model,
    embedding model, search endpoint, index name.  Each line is the success
    line of its item when the item's own variable is set and not empty, and
    the error line of its item otherwise; the two keys have no line. *)
Theorem status_panel_has_five_lines w i c :
  reachable w ->
  ready w i c ->
  clear_clicked i = false ->
  let env := environ w ∪ dotenv i in
  status_lines (trace_of (script i w)) =
    [ (if truthy (env !! "OPEN_AI_ENDPOINT")
       then success "✅ Azure OpenAI Endpoint" else error "❌ Azure OpenAI Endpoint");
      (if truthy (env !! "CHAT_MODEL")
       then success "✅ Chat Model" else error "❌ Chat Model");
      (if truthy (env !! "EMBEDDING_MODEL")
       then success "✅ Embedding Model" else error "❌ Embedding Model");
      (if truthy (env !! "SEARCH_ENDPOINT")
       then success "✅ Search Endpoint" else error "❌ Search Endpoint");
      (if truthy (env !! "INDEX_NAME")
       then success "✅ Index Name" else error "❌ Index Name") ].
Proof.
  intros Hreach Hready Hclear env. apply reachable_cache_inv in Hreach.
  pose proof (proj1 (ready_entry w i c) Hready) as Hv.
  pose proof (status_lines_opening w i c Hreach Hv) as Hopen.
  destruct (turn_text i) as [text|] eqn:Ht.
  - rewrite (script_turn w i c text Hv Ht). unfold trace_of. cbn [snd].
    rewrite !status_lines_app, Hopen, status_lines_page. reflexivity.
  - rewrite (script_idle w i c Hv Hclear Ht). unfold trace_of. cbn [snd].
    rewrite !status_lines_app, Hopen, status_lines_page.
    destruct (length (current_history w) =? 0)%nat; reflexivity.
Qed.

Lemma status_panel_has_five_lines_witness :
  status_lines (trace_of (script (ask "hi" echo) (process_start env_ok))) =
    [ success "✅ Azure OpenAI Endpoint"; success "✅ Chat Model";
      error "❌ Embedding Model"; error "❌ Search Endpoint"; error "❌ Index Name" ].
Proof.
  apply (status_panel_has_five_lines (process_start env_ok) (ask "hi" echo) client_ok).
  - apply reach_start.
  - vm_compute. reflexivity.
  - reflexivity.
Defined.

(** ** Reading the environment *)

Lemma getenvs_cold i env :
  getenvs (cold_trace i env) = ["OPEN_AI_ENDPOINT"; "OPEN_AI_KEY"].
Proof.
  unfold cold_trace. destruct (configured env); [|reflexivity].
  destruct (constructor_error i); reflexivity.
Qed.

Lemma getenvs_opening w i :
  getenvs (opening_events w i) =
    match resource_cache w with
    | None => ["OPEN_AI_ENDPOINT"; "OPEN_AI_KEY"]
    | Some _ => []
    end.
Proof.
  unfold opening_events, initialize_trace. rewrite getenvs_app.
  destruct (resource_cache w); [apply getenvs_replay|apply getenvs_cold].
Qed.

Lemma getenvs_page w i :
  getenvs (page_events w i) =
    ["OPEN_AI_ENDPOINT"; "CHAT_MODEL"; "EMBEDDING_MODEL"; "SEARCH_ENDPOINT"; "INDEX_NAME"].
Proof.
  unfold page_events. rewrite !getenvs_app, getenvs_history. reflexivity.
Qed.

(** C7, as stated, fails: in a process whose handle is already built, a turn
    reads the environment again, and two turns of one process send different
    chat models when the [.env] file gains the variable in between. *)
Lemma configuration_is_read_again :
  let w1 := run (process_start env_minimal) (idle ∅ echo) in
  let w2 := run w1 (ask "first" echo) in
  In "CHAT_MODEL" (getenvs (trace_of (script (ask "first" echo) w1))) /\
  map (fun cr => model cr.2) (requests (trace_of (script (ask "first" echo) w1))) = [None] /\
  map (fun cr => model cr.2)
      (requests (trace_of (script (with_dotenv model_file (ask "second" echo)) w2))) =
    [Some "gpt-4o"].
Proof.
  cbv zeta. repeat split; vm_compute; auto.
Qed.

Lemma getenvs_script w i :
  getenvs (trace_of (script i w)) =
    match resource_cache w with
    | None => ["OPEN_AI_ENDPOINT"; "OPEN_AI_KEY"]
    | Some _ => []
    end ++
    match cached_value (entry_after i (resource_cache w) (environ w ∪ dotenv i)) with
    | None => []
    | Some _ =>
        if clear_clicked i then []
        else
          ["OPEN_AI_ENDPOINT"; "CHAT_MODEL"; "EMBEDDING_MODEL"; "SEARCH_ENDPOINT";
           "INDEX_NAME"] ++
          match turn_text i with
          | Some _ =>
              ["CHAT_MODEL"; "EMBEDDING_MODEL"; "SEARCH_ENDPOINT"; "SEARCH_KEY";
               "INDEX_NAME"]
          | None => []
          end
    end.
Proof.
  destruct (cached_value _) as [c|] eqn:Hv.
  - destruct (clear_clicked i) eqn:Hclear.
    + rewrite (script_clear w i c Hv Hclear). unfold trace_of. cbn [snd].
      rewrite getenvs_app, getenvs_opening. reflexivity.
    + destruct (turn_text i) as [text|] eqn:Ht.
      * rewrite (script_turn w i c text Hv Ht). unfold trace_of. cbn [snd].
        rewrite !getenvs_app, getenvs_opening, getenvs_page. reflexivity.
      * rewrite (script_idle w i c Hv Hclear Ht). unfold trace_of. cbn [snd].
        rewrite !getenvs_app, getenvs_opening, getenvs_page.
        now destruct (length (current_history w) =? 0)%nat.
  - rewrite (script_stop w i Hv). unfold trace_of. cbn [snd].
    now rewrite getenvs_opening, app_nil_r.
Qed.

Lemma occurrences_app name l1 l2 :
  occurrences name (l1 ++ l2) = occurrences name l1 + occurrences name l2.
Proof. unfold occurrences. now rewrite List.filter_app, length_app. Qed.

Lemma key_reads_of_a_run w i :
  occurrences "OPEN_AI_KEY" (getenvs (trace_of (script i w))) =
    match resource_cache w with None => 1 | Some _ => 0 end.
Proof.
  rewrite getenvs_script, occurrences_app.
  destruct (resource_cache w) as [e|]; cbn [entry_after].
  - destruct (cached_value e); [|reflexivity].
    destruct (clear_clicked i); [reflexivity|].
    destruct (turn_text i); reflexivity.
  - destruct (cached_value _); [|reflexivity].
    destruct (clear_clicked i); [reflexivity|].
    destruct (turn_text i); reflexivity.
Qed.

Lemma key_reads_of_a_session inputs : forall w,
  occurrences "OPEN_AI_KEY" (session_getenvs w inputs) =
    match resource_cache w, inputs with
    | None, _ :: _ => 1
    | _, _ => 0
    end.
Proof.
  induction inputs as [|i rest IH]; intros w.
  - now destruct (resource_cache w).
  - cbn [session_getenvs]. rewrite occurrences_app, key_reads_of_a_run, IH.
    rewrite resource_cache_run. destruct (resource_cache w), rest; reflexivity.
Qed.

(** C7, amended.  The configuration is not read once.  Of the seven values
    only the API key is read once in a process: by the first call of
    [initialize_azure_client], in the first run; no later run reads it, and
    a cached handle is returned as stored.  A run that finds the cache
    empty reads the endpoint URL and the API key.  Every page drawn past
    the clear button reads the endpoint URL, chat model, embedding model,
    search endpoint and index name for the status panel.  Every turn reads
    the chat model, embedding model, search endpoint, search key and index
    name again, and its request carries the values the environment holds at
    that turn, after the [.env] file has been loaded again.  A run that
    stops for want of a handle or ends at the clear button reads nothing
    more and sends nothing. *)
Theorem configuration_reads_of_every_run w i :
  let env := environ w ∪ dotenv i in
  getenvs (trace_of (script i w)) =
    match resource_cache w with
    | None => ["OPEN_AI_ENDPOINT"; "OPEN_AI_KEY"]
    | Some _ => []
    end ++
    match result_of (initialize_azure_client i (started w i)) with
    | Return (Some _) =>
        if clear_clicked i then []
        else
          ["OPEN_AI_ENDPOINT"; "CHAT_MODEL"; "EMBEDDING_MODEL"; "SEARCH_ENDPOINT";
           "INDEX_NAME"] ++
          match turn_text i with
          | Some _ =>
              ["CHAT_MODEL"; "EMBEDDING_MODEL"; "SEARCH_ENDPOINT"; "SEARCH_KEY";
               "INDEX_NAME"]
          | None => []
          end
    | _ => []
    end /\
  requests (trace_of (script i w)) =
    match result_of (initialize_azure_client i (started w i)), turn_text i with
    | Return (Some c), Some text =>
        [(c,
          {| model := env !! "CHAT_MODEL";
             request_messages := current_messages w ++ [user_message text];
             extra_body :=
               rag_params (env !! "SEARCH_ENDPOINT") (env !! "INDEX_NAME")
                          (env !! "SEARCH_KEY") (env !! "EMBEDDING_MODEL") |})]
    | _, _ => []
    end /\
  match resource_cache w with
  | Some e =>
      initialize_azure_client i (started w i) =
        (Return (cached_value e), started w i, replay (cached_elements e))
  | None => True
  end /\
  forall inputs,
    occurrences "OPEN_AI_KEY" (session_getenvs w inputs) =
      match resource_cache w, inputs with
      | None, _ :: _ => 1
      | _, _ => 0
      end.
Proof.
  intros env. repeat split.
  - rewrite getenvs_script, initialize_eq. unfold result_of. cbn [fst started resource_cache environ].
    now destruct (cached_value _).
  - rewrite initialize_eq. unfold result_of. cbn [fst started resource_cache environ].
    destruct (cached_value _) as [c|] eqn:Hv.
    + destruct (turn_text i) as [text|] eqn:Ht.
      * now rewrite (requests_turn w i c text Hv Ht).
      * now apply requests_no_turn.
    + rewrite (script_stop w i Hv). unfold trace_of. cbn [snd].
      rewrite requests_opening. now destruct (turn_text i).
  - destruct (resource_cache w) as [e|] eqn:Hc; [|exact I].
    apply initialize_warm. exact Hc.
  - intros inputs. apply key_reads_of_a_session.
Qed.

Lemma configuration_reads_of_every_run_witness :
  getenvs (trace_of (script (with_dotenv model_file (ask "second" echo))
                       (run (run (process_start env_minimal) (idle ∅ echo))
                            (ask "first" echo)))) =
    ["OPEN_AI_ENDPOINT"; "CHAT_MODEL"; "EMBEDDING_MODEL"; "SEARCH_ENDPOINT"; "INDEX_NAME";
     "CHAT_MODEL"; "EMBEDDING_MODEL"; "SEARCH_ENDPOINT"; "SEARCH_KEY"; "INDEX_NAME"] /\
  occurrences "OPEN_AI_KEY" (session_getenvs (process_start env_minimal) three_runs) = 1.
Proof.
  split.
  - destruct (configuration_reads_of_every_run
                (run (run (process_start env_minimal) (idle ∅ echo)) (ask "first" echo))
                (with_dotenv model_file (ask "second" echo))) as (H & _).
    exact H.
  - destruct (configuration_reads_of_every_run (process_start env_minimal) (idle ∅ echo))
      as (_ & _ & _ & H).
    exact (H three_runs).
Defined.

(** ** Runs without a turn *)

(** X1.  A run whose chat input returned nothing or the empty text, and in
    which the clear button was not clicked, sends no request and leaves both
    lists of the session as they were (as lines 82-88 set them, in the first
    run of a session). *)
Theorem no_prompt_no_turn w i :
  turn_text i = None ->
  clear_clicked i = false ->
  requests (trace_of (script i w)) = [] /\
  messages (session_state (run w i)) = Some (current_messages w) /\
  chat_history (session_state (run w i)) = Some (current_history w).
Proof.
  intros Ht Hclear. split; [now apply requests_no_turn|].
  rewrite session_run. unfold next_lists. rewrite Ht, Hclear.
  destruct (cached_value _); auto.
Qed.

Lemma no_prompt_no_turn_witness :
  requests (trace_of (script empty_prompt
                        (run (process_start env_ok) (ask "hi" echo)))) = [] /\
  messages (session_state (run (run (process_start env_ok) (ask "hi" echo)) empty_prompt)) =
    Some [system_prompt; user_message "hi"; assistant_message "ok"] /\
  chat_history (session_state (run (run (process_start env_ok) (ask "hi" echo)) empty_prompt)) =
    Some [user_message "hi"; assistant_message "ok"].
Proof.
  apply (no_prompt_no_turn (run (process_start env_ok) (ask "hi" echo)) empty_prompt);
    reflexivity.
Defined.

Lemma drawn_opening_ready w i c :
  cache_inv w ->
  cached_value (entry_after i (resource_cache w) (environ w ∪ dotenv i)) = Some c ->
  drawn (opening_events w i) = drawn heading_events.
Proof.
  intros Hinv Hv. pose proof (reachable_entry_client w i c Hinv Hv) as He.
  unfold opening_events, initialize_trace. rewrite drawn_app.
  unfold entry_after in He, Hv.
  destruct (resource_cache w) as [e|].
  - rewrite He. cbn. reflexivity.
  - apply cold_entry_client in Hv as (_ & _ & Hconf & Hctor).
    unfold cold_trace. rewrite Hconf, Hctor. reflexivity.
Qed.

(** X2.  A click on the clear button ends the run at [st.rerun()] right
    after the button: the page of that run holds the heading and the two
    sidebar controls only (no status panel, no history, no chat input), and
    no request is sent even when a prompt came with the click. *)
Theorem clear_ends_the_run_early w i c :
  reachable w ->
  ready w i c ->
  clear_clicked i = true ->
  result_of (script i w) = Raise RerunException /\
  requests (trace_of (script i w)) = [] /\
  drawn (trace_of (script i w)) =
    drawn heading_events ++
    [ (Sidebar, header "Chat Controls"); (Sidebar, button "🗑️ Clear Chat History") ].
Proof.
  intros Hreach Hready Hclear. apply reachable_cache_inv in Hreach.
  pose proof (proj1 (ready_entry w i c) Hready) as Hv.
  rewrite (script_clear w i c Hv Hclear).
  unfold result_of, trace_of. cbn [fst snd].
  repeat split.
  - rewrite requests_app, requests_opening. reflexivity.
  - rewrite drawn_app, (drawn_opening_ready w i c Hreach Hv). reflexivity.
Qed.

Lemma clear_ends_the_run_early_witness :
  requests (trace_of (script clear_and_ask
                        (run (process_start env_ok) (ask "hi" echo)))) = [].
Proof.
  destruct (clear_ends_the_run_early (run (process_start env_ok) (ask "hi" echo))
              clear_and_ask client_ok) as (_ & H & _).
  - apply reach_run, reach_start.
  - vm_compute. reflexivity.
  - reflexivity.
  - exact H.
Defined.

(** ** Replies *)

Lemma messages_after_turn w i c text :
  cached_value (entry_after i (resource_cache w) (environ w ∪ dotenv i)) = Some c ->
  turn_text i = Some text ->
  result_of (script i w) = Return tt /\
  messages (session_state (run w i)) =
    Some (current_messages w ++
            [user_message text; assistant_message (turn_reply w i c text)]) /\
  chat_history (session_state (run w i)) =
    Some (current_history w ++
            [user_message text; assistant_message (turn_reply w i c text)]).
Proof.
  intros Hv Ht. unfold run. rewrite (script_turn w i c text Hv Ht). auto.
Qed.

(** X3.  When the service answers with an empty list of choices, indexing
    the first choice fails inside the [try] of [get_rag_response]: the run
    ends normally and records "Error: list index out of range" as the
    assistant message in both lists. *)
Theorem empty_choices_are_an_error_reply w i c text :
  ready w i c ->
  turn_text i = Some text ->
  completions_create i c (turn_request w i text) = Response [] ->
  result_of (script i w) = Return tt /\
  messages (session_state (run w i)) =
    Some (current_messages w ++
            [user_message text; assistant_message "Error: list index out of range"]) /\
  chat_history (session_state (run w i)) =
    Some (current_history w ++
            [user_message text; assistant_message "Error: list index out of range"]).
Proof.
  intros Hready Ht Hout.
  pose proof (proj1 (ready_entry w i c) Hready) as Hv.
  pose proof (messages_after_turn w i c text Hv Ht) as H.
  unfold turn_reply in H. now rewrite Hout in H.
Qed.

Lemma empty_choices_are_an_error_reply_witness :
  messages (session_state (run (process_start env_ok) (ask "hi" no_choices))) =
    Some [system_prompt; user_message "hi";
          assistant_message "Error: list index out of range"].
Proof.
  destruct (empty_choices_are_an_error_reply (process_start env_ok) (ask "hi" no_choices)
              client_ok "hi") as (_ & H & _).
  - vm_compute. reflexivity.
  - reflexivity.
  - reflexivity.
  - exact H.
Defined.

(** X4.  When the service answers with one or more choices, the assistant
    message recorded in both lists is the content of the first choice; the
    other choices are ignored. *)
Theorem first_choice_is_the_reply w i c text choice others :
  ready w i c ->
  turn_text i = Some text ->
  completions_create i c (turn_request w i text) = Response (choice :: others) ->
  result_of (script i w) = Return tt /\
  messages (session_state (run w i)) =
    Some (current_messages w ++
            [user_message text; assistant_message (message_content choice)]) /\
  chat_history (session_state (run w i)) =
    Some (current_history w ++
            [user_message text; assistant_message (message_content choice)]).
Proof.
  intros Hready Ht Hout.
  pose proof (proj1 (ready_entry w i c) Hready) as Hv.
  pose proof (messages_after_turn w i c text Hv Ht) as H.
  unfold turn_reply in H. now rewrite Hout in H.
Qed.

Lemma first_choice_is_the_reply_witness :
  chat_history (session_state (run (process_start env_ok) (ask "hi" two_choices))) =
    Some [user_message "hi"; assistant_message "first answer"].
Proof.
  destruct (first_choice_is_the_reply (process_start env_ok) (ask "hi" two_choices)
              client_ok "hi" {| message_content := "first answer" |}
              [ {| message_content := "second answer" |} ]) as (_ & _ & H).
  - vm_compute. reflexivity.
  - reflexivity.
  - reflexivity.
  - exact H.
Defined.

(** ** No uncaught exception *)

(** X5.  From any world and with any inputs, also a session state that holds
    only one of its two keys, a run of the script ends in one of three ways:
    at its last line, at [st.stop()] or at [st.rerun()].  No Python exception
    leaves the script: not from the constructor, not from the completion
    call, not from reading the session state. *)
Theorem script_never_crashes w i :
  result_of (script i w) = Return tt \/
  result_of (script i w) = Raise StopException \/
  result_of (script i w) = Raise RerunException.
Proof.
  destruct (cached_value (entry_after i (resource_cache w) (environ w ∪ dotenv i)))
    as [c|] eqn:Hv.
  - destruct (clear_clicked i) eqn:Hclear.
    + rewrite (script_clear w i c Hv Hclear). auto.
    + destruct (turn_text i) as [text|] eqn:Ht.
      * rewrite (script_turn w i c text Hv Ht). auto.
      * rewrite (script_idle w i c Hv Hclear Ht). unfold result_of. cbn [fst].
        destruct (length (current_history w) =? 0)%nat; auto.
  - rewrite (script_stop w i Hv). auto.
Qed.

(** ** Initialization *)

(** X6.  In a process that has no cache entry yet, a run obtains a handle
    exactly when the endpoint URL and the API key are both set and not empty
    and the constructor does not raise; the handle is then the one built
    from these two values.  The five other variables play no part. *)
Theorem ready_iff_configured w i c :
  resource_cache w = None ->
  ready w i c <->
  configured (environ w ∪ dotenv i) = true /\
  constructor_error i = None /\
  c = azure_client (environ w ∪ dotenv i).
Proof.
  intros Hcold. rewrite ready_entry, Hcold. cbn. split.
  - intros H. apply cold_entry_client in H. tauto.
  - intros (Hconf & Hctor & ->). unfold cold_value. now rewrite Hconf, Hctor.
Qed.

Lemma ready_iff_configured_witness :
  ready (process_start env_minimal) (ask "hi" echo) (azure_client env_minimal) <->
  configured (env_minimal ∪ ∅) = true /\
  constructor_error (ask "hi" echo) = None /\
  azure_client env_minimal = azure_client (env_minimal ∪ ∅).
Proof.
  apply (ready_iff_configured (process_start env_minimal) (ask "hi" echo)).
  reflexivity.
Defined.

(** X7.  When the constructor raises with message [m] in the first call of a
    process whose endpoint and key are set, [initialize_azure_client]
    returns [None], the page shows "Failed to initialize Azure client: "
    followed by [m] under the heading and nothing else, the run ends at
    [st.stop()], and no request is sent. *)
Theorem constructor_failure_halts w i m :
  resource_cache w = None ->
  configured (environ w ∪ dotenv i) = true ->
  constructor_error i = Some m ->
  result_of (initialize_azure_client i (started w i)) = Return None /\
  result_of (script i w) = Raise StopException /\
  drawn (trace_of (script i w)) =
    drawn heading_events ++
    [(Main, error ("Failed to initialize Azure client: " +:+ m))] /\
  requests (trace_of (script i w)) = [].
Proof.
  intros Hcold Hconf Hctor.
  assert (cached_value (entry_after i (resource_cache w) (environ w ∪ dotenv i)) = None)
    as Hv.
  { rewrite Hcold. cbn. unfold cold_value. now rewrite Hconf, Hctor. }
  rewrite initialize_eq, (script_stop w i Hv).
  unfold result_of, trace_of. cbn [fst snd started environ resource_cache].
  repeat split.
  - now rewrite Hv.
  - unfold opening_events, initialize_trace. rewrite Hcold, drawn_app.
    unfold cold_trace. rewrite Hconf, Hctor. reflexivity.
  - apply requests_opening.
Qed.

Lemma constructor_failure_halts_witness :
  drawn (trace_of (script broken_constructor (process_start env_ok))) =
    drawn heading_events ++
    [(Main, error "Failed to initialize Azure client: connection refused")].
Proof.
  destruct (constructor_failure_halts (process_start env_ok) broken_constructor
              "connection refused") as (_ & _ & H & _).
  - reflexivity.
  - vm_compute. reflexivity.
  - reflexivity.
  - exact H.
Defined.

(** X8.  A failed initialization is memoized like a successful one: once the
    first call of a process has returned [None], every later call returns
    [None], draws again what the first call drew and does nothing else, and
    every later run of the script ends at [st.stop()], also when the
    environment has been completed in between. *)
Theorem failed_initialization_is_memoized w i w' i' :
  resource_cache w = None ->
  result_of (initialize_azure_client i w) = Return None ->
  later (world_of (initialize_azure_client i w)) w' ->
  initialize_azure_client i' w' =
    (Return None, w', replay (drawn (trace_of (initialize_azure_client i w)))) /\
  result_of (script i' w') = Raise StopException.
Proof.
  intros Hcold Hres Hlater.
  rewrite (initialize_cold i w Hcold) in Hres, Hlater |- *.
  unfold result_of, world_of, trace_of in *. cbn [fst snd] in *.
  injection Hres as Hval.
  assert (resource_cache w' = Some (cold_entry i (environ w))) as Hkept
    by (eapply later_keeps_entry; [|exact Hlater]; reflexivity).
  split.
  - rewrite (initialize_warm i' w' _ Hkept). cbn. now rewrite Hval.
  - assert (cached_value (entry_after i' (resource_cache w') (environ w' ∪ dotenv i'))
            = None) as Hv by (rewrite Hkept; exact Hval).
    now rewrite (script_stop w' i' Hv).
Qed.

Lemma failed_initialization_is_memoized_witness :
  result_of (script (idle env_ok echo)
               (world_of (initialize_azure_client (idle ∅ echo)
                            (process_start env_without_key)))) =
    Raise StopException.
Proof.
  destruct (failed_initialization_is_memoized (process_start env_without_key)
              (idle ∅ echo)
              (world_of (initialize_azure_client (idle ∅ echo)
                           (process_start env_without_key)))
              (idle env_ok echo)) as (_ & H).
  - reflexivity.
  - vm_compute. reflexivity.
  - apply later_refl.
  - exact H.
Defined.

Lemma configured_lookup (env0 env : gmap string string) :
  env0 ⊆ env -> configured env0 = true ->
  env !! "OPEN_AI_ENDPOINT" = env0 !! "OPEN_AI_ENDPOINT" /\
  env !! "OPEN_AI_KEY" = env0 !! "OPEN_AI_KEY".
Proof.
  unfold configured. intros Hsub [H1 H2]%andb_prop.
  destruct (env0 !! "OPEN_AI_ENDPOINT") as [v1|] eqn:E1; [|discriminate].
  destruct (env0 !! "OPEN_AI_KEY") as [v2|] eqn:E2; [|discriminate].
  now rewrite (lookup_weaken _ _ _ _ E1 Hsub), (lookup_weaken _ _ _ _ E2 Hsub).
Qed.

(** A handle obtained in a reachable world was built from an environment
    that accepted both values and that the present one extends. *)
Lemma ready_handle_origin w i c :
  cache_inv w ->
  cached_value (entry_after i (resource_cache w) (environ w ∪ dotenv i)) = Some c ->
  exists env0, env0 ⊆ environ w ∪ dotenv i /\ configured env0 = true /\
               c = azure_client env0.
Proof.
  intros Hinv Hv. unfold entry_after in Hv.
  destruct (resource_cache w) as [e|] eqn:Hc.
  - destruct (Hinv e Hc) as (i0 & env0 & -> & Hsub).
    apply cold_entry_client in Hv as (_ & -> & Hconf & _).
    exists env0. repeat split; [|assumption].
    etrans; [exact Hsub|]. apply map_union_subseteq_l.
  - apply cold_entry_client in Hv as (_ & -> & Hconf & _).
    exists (environ w ∪ dotenv i). auto.
Qed.

(** X9.  In a reachable world, the handle a run obtains is bound to API
    version "2024-12-01-preview" and to the endpoint URL and API key the
    environment holds in that run, both set and not empty: the variables
    read when the handle was built have kept their values since. *)
Theorem handle_matches_environment w i c :
  reachable w ->
  ready w i c ->
  api_version c = Some "2024-12-01-preview" /\
  azure_endpoint c = (environ w ∪ dotenv i) !! "OPEN_AI_ENDPOINT" /\
  api_key c = (environ w ∪ dotenv i) !! "OPEN_AI_KEY" /\
  truthy (azure_endpoint c) = true /\
  truthy (api_key c) = true.
Proof.
  intros Hreach Hready. apply reachable_cache_inv in Hreach.
  pose proof (proj1 (ready_entry w i c) Hready) as Hv.
  destruct (ready_handle_origin w i c Hreach Hv) as (env0 & Hsub & Hconf & ->).
  destruct (configured_lookup env0 _ Hsub Hconf) as [-> ->].
  apply andb_prop in Hconf as [H1 H2]. cbn. auto.
Qed.

Lemma handle_matches_environment_witness :
  azure_endpoint client_ok = Some "https://x.openai.azure.com" /\
  api_key client_ok = Some "k1".
Proof.
  destruct (handle_matches_environment
              (run (process_start env_ok) (idle ∅ echo)) (idle other_file echo) client_ok)
    as (_ & H1 & H2 & _).
  - apply reach_run, reach_start.
  - vm_compute. reflexivity.
  - split; [exact H1|exact H2].
Defined.

Lemma constructions_app t1 t2 :
  constructions (t1 ++ t2) = constructions t1 ++ constructions t2.
Proof. apply omap_app. Qed.

Lemma constructions_replay l : constructions (replay l) = [].
Proof. induction l as [|[p e] l IH]; [reflexivity|exact IH]. Qed.

Lemma constructions_history ms : constructions (history_events ms) = [].
Proof. induction ms as [|m ms IH]; [reflexivity|exact IH]. Qed.

Lemma constructions_page w i : constructions (page_events w i) = [].
Proof.
  unfold page_events. rewrite !constructions_app, constructions_history. reflexivity.
Qed.

Lemma constructions_opening w i :
  length (constructions (opening_events w i)) <=
    match resource_cache w with None => 1 | Some _ => 0 end.
Proof.
  unfold opening_events, initialize_trace. rewrite constructions_app. cbn.
  destruct (resource_cache w).
  - now rewrite constructions_replay.
  - unfold cold_trace. destruct (configured _); [|cbn; lia].
    destruct (constructor_error i); cbn; lia.
Qed.

Lemma constructions_script w i :
  length (constructions (trace_of (script i w))) <=
    match resource_cache w with None => 1 | Some _ => 0 end.
Proof.
  pose proof (constructions_opening w i) as Hopen.
  remember (match resource_cache w with None => 1 | Some _ => 0 end) as bound.
  remember (length (constructions (opening_events w i))) as n eqn:Hn.
  destruct (cached_value (entry_after i (resource_cache w) (environ w ∪ dotenv i)))
    as [c|] eqn:Hv.
  - destruct (clear_clicked i) eqn:Hclear.
    + rewrite (script_clear w i c Hv Hclear). unfold trace_of. cbn [snd].
      rewrite constructions_app, length_app, <- Hn.
      change (constructions controls_events) with (@nil Client). cbn [length]. lia.
    + destruct (turn_text i) as [text|] eqn:Ht.
      * rewrite (script_turn w i c text Hv Ht). unfold trace_of. cbn [snd].
        rewrite !constructions_app, constructions_page, !length_app, <- Hn.
        change (constructions footer_events) with (@nil Client).
        change (constructions (turn_events c (turn_request w i text) text
                                 (turn_reply w i c text))) with (@nil Client).
        cbn [length]. lia.
      * rewrite (script_idle w i c Hv Hclear Ht). unfold trace_of. cbn [snd].
        rewrite !constructions_app, constructions_page, !length_app, <- Hn.
        change (constructions footer_events) with (@nil Client).
        destruct (length (current_history w) =? 0)%nat; cbn [length];
          [change (constructions examples_events) with (@nil Client)|
           change (constructions []) with (@nil Client)];
          cbn [length]; lia.
  - rewrite (script_stop w i Hv). unfold trace_of. cbn [snd]. lia.
Qed.

(** X10.  Along any sequence of runs of a process, at most one client is ever
    built, and none when the cache already holds an entry. *)
Theorem at_most_one_client_is_built inputs : forall w,
  length (session_constructions w inputs) <=
    match resource_cache w with None => 1 | Some _ => 0 end.
Proof.
  induction inputs as [|i rest IH]; intros w.
  - cbn. destruct (resource_cache w); lia.
  - cbn [session_constructions]. rewrite length_app.
    pose proof (constructions_script w i) as H1.
    pose proof (IH (run w i)) as H2. rewrite resource_cache_run in H2.
    destruct (resource_cache w); lia.
Qed.

(** ** What the page shows *)

Lemma chat_bubbles_app t1 t2 : chat_bubbles (t1 ++ t2) = chat_bubbles t1 ++ chat_bubbles t2.
Proof. apply omap_app. Qed.

Lemma chat_bubbles_history ms : chat_bubbles (history_events ms) = ms.
Proof.
  induction ms as [|[r body] ms IH]; [reflexivity|].
  cbn. f_equal. exact IH.
Qed.

Lemma chat_bubbles_drawn t :
  chat_bubbles t = chat_bubbles (replay (drawn t)).
Proof.
  induction t as [|ev t IH]; [reflexivity|].
  destruct ev as [p e|name|c|c rq]; try exact IH.
  destruct p; try exact IH. destruct e; try exact IH. cbn. now f_equal.
Qed.

Lemma chat_bubbles_opening w i c :
  cache_inv w ->
  cached_value (entry_after i (resource_cache w) (environ w ∪ dotenv i)) = Some c ->
  chat_bubbles (opening_events w i) = [].
Proof.
  intros Hinv Hv.
  now rewrite chat_bubbles_drawn, (drawn_opening_ready w i c Hinv Hv).
Qed.

Lemma chat_bubbles_page w i : chat_bubbles (page_events w i) = current_history w.
Proof.
  unfold page_events. rewrite !chat_bubbles_app, chat_bubbles_history.
  change (chat_bubbles controls_events) with (@nil Message).
  change (chat_bubbles about_events) with (@nil Message).
  assert (chat_bubbles (panel_events (environ w ∪ dotenv i)) = []) as -> by reflexivity.
  cbn. now rewrite ?app_nil_r.
Qed.

(** X11.  On every page drawn past the clear button in a reachable world,
    the conversation shown (the markdown bodies inside chat messages, in
    order, with the names of their chat messages) is exactly the displayed
    history the run leaves in the session: the stored history, then the new
    user text and its reply when the run performs a turn. *)
Theorem page_shows_the_history w i c :
  reachable w ->
  ready w i c ->
  clear_clicked i = false ->
  chat_history (session_state (run w i)) = Some (chat_bubbles (trace_of (script i w))).
Proof.
  intros Hreach Hready Hclear. apply reachable_cache_inv in Hreach.
  pose proof (proj1 (ready_entry w i c) Hready) as Hv.
  pose proof (chat_bubbles_opening w i c Hreach Hv) as Hopen.
  unfold run. destruct (turn_text i) as [text|] eqn:Ht.
  - rewrite (script_turn w i c text Hv Ht). unfold trace_of, world_of. cbn [fst snd].
    rewrite !chat_bubbles_app, Hopen, chat_bubbles_page. cbn.
    now rewrite ?app_nil_r.
  - rewrite (script_idle w i c Hv Hclear Ht). unfold trace_of, world_of. cbn [fst snd].
    rewrite !chat_bubbles_app, Hopen, chat_bubbles_page.
    destruct (length (current_history w) =? 0)%nat; cbn; now rewrite ?app_nil_r.
Qed.

Lemma page_shows_the_history_witness :
  Some [user_message "first"; assistant_message "Error: timeout";
        user_message "second"; assistant_message "ok"] =
  Some (chat_bubbles (trace_of (script (ask "second" echo)
                                  (run (process_start env_ok) (ask "first" timeout))))).
Proof.
  apply (page_shows_the_history (run (process_start env_ok) (ask "first" timeout))
           (ask "second" echo) client_ok).
  - apply reach_run, reach_start.
  - vm_compute. reflexivity.
  - reflexivity.
Defined.

Lemma example_links_app t1 t2 :
  example_links (t1 ++ t2) = example_links t1 ++ example_links t2.
Proof. apply omap_app. Qed.

Lemma example_links_history ms : example_links (history_events ms) = [].
Proof. induction ms as [|m ms IH]; [reflexivity|exact IH]. Qed.

Lemma example_links_drawn t :
  example_links t = example_links (replay (drawn t)).
Proof.
  induction t as [|ev t IH]; [reflexivity|].
  destruct ev as [p e|name|c|c rq]; try exact IH.
  destruct p; try exact IH. destruct e; try exact IH. cbn. now f_equal.
Qed.

Lemma example_links_page w i : example_links (page_events w i) = [].
Proof.
  unfold page_events. rewrite !example_links_app, example_links_history. reflexivity.
Qed.

(** X12.  On every page drawn past the clear button in a reachable world,
    the row of example prompts with its download link is drawn exactly when
    the displayed history is empty at the end of the run, hence never in a
    run that performs a turn.  The run ends at the [st.rerun()] of line 181
    exactly when the row is drawn, because the value of [st.link_button] is
    always true, and at its last line otherwise. *)
Theorem examples_only_for_an_empty_history w i c :
  reachable w ->
  ready w i c ->
  clear_clicked i = false ->
  example_links (trace_of (script i w)) =
    match chat_history (session_state (run w i)) with
    | Some [] => [project_url]
    | _ => []
    end /\
  result_of (script i w) =
    match chat_history (session_state (run w i)) with
    | Some [] => Raise RerunException
    | _ => Return tt
    end.
Proof.
  intros Hreach Hready Hclear. apply reachable_cache_inv in Hreach.
  pose proof (proj1 (ready_entry w i c) Hready) as Hv.
  assert (example_links (opening_events w i) = []) as Hopen.
  { now rewrite example_links_drawn, (drawn_opening_ready w i c Hreach Hv). }
  unfold run. destruct (turn_text i) as [text|] eqn:Ht.
  - rewrite (script_turn w i c text Hv Ht).
    unfold result_of, trace_of, world_of. cbn [fst snd].
    rewrite !example_links_app, Hopen, example_links_page.
    cbn [world_with session_state chat_history].
    destruct (current_history w); cbn; auto.
  - rewrite (script_idle w i c Hv Hclear Ht).
    unfold result_of, trace_of, world_of. cbn [fst snd].
    rewrite !example_links_app, Hopen, example_links_page.
    cbn [world_with session_state chat_history].
    destruct (current_history w); cbn; auto.
Qed.

Lemma examples_only_for_an_empty_history_witness :
  (example_links (trace_of (script (idle ∅ echo) (process_start env_ok))) = [project_url] /\
   result_of (script (idle ∅ echo) (process_start env_ok)) = Raise RerunException) /\
  (example_links (trace_of (script (ask "hi" echo) (process_start env_ok))) = [] /\
   result_of (script (ask "hi" echo) (process_start env_ok)) = Return tt).
Proof.
  split.
  - destruct (examples_only_for_an_empty_history (process_start env_ok) (idle ∅ echo)
                client_ok) as (H1 & H2).
    + apply reach_start.
    + vm_compute. reflexivity.
    + reflexivity.
    + split; [exact H1|exact H2].
  - destruct (examples_only_for_an_empty_history (process_start env_ok) (ask "hi" echo)
                client_ok) as (H1 & H2).
    + apply reach_start.
    + vm_compute. reflexivity.
    + reflexivity.
    + split; [exact H1|exact H2].
Defined.

(** ** After a clear *)

(** X13.  The turn that follows a click on the clear button sends the prompt
    of line 107 as the only message before the new user message, whatever
    the session held before the click, and leaves that prompt, the user
    message and the reply in the session. *)
Theorem turn_after_clear_starts_from_clear_prompt w i c i2 text :
  ready w i c ->
  clear_clicked i = true ->
  turn_text i2 = Some text ->
  exists rq,
    requests (trace_of (script i2 (run w i))) = [(c, rq)] /\
    request_messages rq = [clear_prompt; user_message text] /\
    messages (session_state (run (run w i) i2)) =
      Some [clear_prompt; user_message text;
            assistant_message (reply_text (completions_create i2 c rq))] /\
    chat_history (session_state (run (run w i) i2)) =
      Some [user_message text;
            assistant_message (reply_text (completions_create i2 c rq))].
Proof.
  intros Hready Hclear Ht.
  pose proof (proj1 (ready_entry w i c) Hready) as Hv.
  pose proof (proj1 (ready_entry (run w i) i2 c) (ready_again w i c i2 Hready)) as Hv2.
  assert (current_messages (run w i) = [clear_prompt] /\ current_history (run w i) = [])
    as [Hms Hch].
  { unfold run. now rewrite (script_clear w i c Hv Hclear). }
  exists (turn_request (run w i) i2 text).
  split; [now apply requests_turn|].
  split; [unfold turn_request; rewrite Hms; reflexivity|].
  destruct (messages_after_turn (run w i) i2 c text Hv2 Ht) as (_ & H1 & H2).
  rewrite H1, H2, Hms, Hch. auto.
Qed.

Lemma turn_after_clear_starts_from_clear_prompt_witness :
  exists rq,
    requests (trace_of (script (ask "again" echo)
                          (run (run (process_start env_ok) (ask "hi" echo)) click_clear)))
      = [(client_ok, rq)] /\
    request_messages rq = [clear_prompt; user_message "again"] /\
    messages (session_state
                (run (run (run (process_start env_ok) (ask "hi" echo)) click_clear)
                     (ask "again" echo))) =
      Some [clear_prompt; user_message "again";
            assistant_message (reply_text (echo client_ok rq))] /\
    chat_history (session_state
                (run (run (run (process_start env_ok) (ask "hi" echo)) click_clear)
                     (ask "again" echo))) =
      Some [user_message "again"; assistant_message (reply_text (echo client_ok rq))].
Proof.
  apply (turn_after_clear_starts_from_clear_prompt
           (run (process_start env_ok) (ask "hi" echo)) click_clear client_ok
           (ask "again" echo) "again").
  - vm_compute. reflexivity.
  - reflexivity.
  - reflexivity.
Defined.

(** ** The two functions on their own *)

(** X14.  [get_rag_response] never raises, whatever the service does (an
    exception, an empty list of choices, one or more choices): it leaves the
    environment, the cache and the session as they are, and sends exactly
    one request, through the handle it was given and with the messages it
    was given. *)
Theorem get_rag_response_never_raises i c msgs w :
  (forall s, result_of (get_rag_response i c msgs w) <> Raise s) /\
  world_of (get_rag_response i c msgs w) = w /\
  exists rq,
    requests (trace_of (get_rag_response i c msgs w)) = [(c, rq)] /\
    request_messages rq = msgs.
Proof.
  rewrite get_rag_response_eq. unfold result_of, world_of, trace_of. cbn [fst snd].
  split; [intros s; discriminate|]. split; [reflexivity|].
  eexists. split; reflexivity.
Qed.

(** X15.  [initialize_azure_client] never raises, whatever the environment
    holds and whatever the constructor does: it returns a handle or [None],
    sends no request, leaves the environment and the session untouched, and
    leaves its result in the cache. *)
Theorem initialize_always_returns i w :
  exists v e,
    result_of (initialize_azure_client i w) = Return v /\
    requests (trace_of (initialize_azure_client i w)) = [] /\
    environ (world_of (initialize_azure_client i w)) = environ w /\
    session_state (world_of (initialize_azure_client i w)) = session_state w /\
    resource_cache (world_of (initialize_azure_client i w)) = Some e /\
    cached_value e = v.
Proof.
  rewrite initialize_eq. eexists _, _.
  unfold result_of, world_of, trace_of. cbn [fst snd].
  repeat split. apply requests_initialize.
Qed.

(** X16.  On every page drawn past the clear button in a reachable world,
    the first line of the status panel is the success line of the endpoint:
    the panel is only drawn when a handle exists, and a handle exists only
    when the endpoint URL is set and not empty. *)
Theorem endpoint_line_is_always_success w i c :
  reachable w ->
  ready w i c ->
  clear_clicked i = false ->
  head (status_lines (trace_of (script i w))) = Some (success "✅ Azure OpenAI Endpoint").
Proof.
  intros Hreach Hready Hclear. apply reachable_cache_inv in Hreach.
  pose proof (proj1 (ready_entry w i c) Hready) as Hv.
  pose proof (status_lines_opening w i c Hreach Hv) as Hopen.
  destruct (ready_handle_origin w i c Hreach Hv) as (env0 & Hsub & Hconf & _).
  assert (truthy ((environ w ∪ dotenv i) !! "OPEN_AI_ENDPOINT") = true) as Hep.
  { apply andb_prop in Hconf as [H1 _]. now apply (truthy_weaken env0). }
  destruct (turn_text i) as [text|] eqn:Ht.
  - rewrite (script_turn w i c text Hv Ht). unfold trace_of. cbn [snd].
    rewrite !status_lines_app, Hopen, status_lines_page.
    unfold panel_lines, status_line. now rewrite Hep.
  - rewrite (script_idle w i c Hv Hclear Ht). unfold trace_of. cbn [snd].
    rewrite !status_lines_app, Hopen, status_lines_page.
    unfold panel_lines, status_line. now rewrite Hep.
Qed.

Lemma endpoint_line_is_always_success_witness :
  head (status_lines (trace_of (script (idle ∅ echo) (process_start env_minimal)))) =
    Some (success "✅ Azure OpenAI Endpoint").
Proof.
  apply (endpoint_line_is_always_success (process_start env_minimal) (idle ∅ echo)
           (azure_client env_minimal)).
  - apply reach_start.
  - vm_compute. reflexivity.
  - reflexivity.
Defined.
